(** * upskill dashboard: aggregation and layout pipeline

    A shallow embedding of the aggregation, label, scale, layout and activity
    code of the profile dashboard (js/components/xp-chart.component.js,
    js/components/skills-chart.component.js, js/services/api.service.js,
    js/app.js, js/utils/dom.utils.js) and the properties of it that the
    specification states.

    Modelling conventions.
    - A JavaScript number is a rational ([Q]) when it is finite; the sums
      [processData] accumulates are rounded to the nearest double, ties to
      even, and a sum beyond the doubles is kept as "not finite".  The
      geometry of a chart and the colours of the activity cells are
      computed exactly.  NaN and the infinities do not occur as inputs.
      Counters that the code itself builds from [0] by [+ 1] are integers
      ([Z]).
    - A JavaScript string is a [string] of ASCII characters; [toUpperCase]
      acts on the letters a-z.
    - A plain object used as a dictionary is the list of its own properties
      in insertion order, and behind it [Object.prototype]: reading a key
      that is not an own property finds the inherited property of that name
      if there is one, and assigning a number or a text to [__proto__]
      stores nothing.  [Object.entries] lists the own properties, array-index keys
      first in ascending numeric order, then the other keys in insertion
      order.
    - [Array.prototype.sort] is stable (ECMAScript 2019); with a comparator
      that is a total preorder its result is determined, and it is computed
      here by a stable insertion sort.
    - DOM output is a value: the empty-state message, or the geometry that
      the drawing calls receive.
    - The local time zone and what the clock reads are parameters. *)

From Stdlib Require Import List ZArith QArith Qround Qminmax Qabs Lia Lqa Bool.
From Stdlib Require Import Ascii String Permutation Sorted.
Import ListNotations.

Local Open Scope string_scope.
Local Open Scope Z_scope.

(** ** JavaScript values, strings, objects and arrays *)

Module Js.

(** The values a record field can hold. *)
Inductive value : Type :=
| JUndefined
| JNull
| JBool (b : bool)
| JNum (q : Q)
| JStr (s : string).

(** ToBoolean. *)
Definition truthy (v : value) : bool :=
  match v with
  | JUndefined | JNull => false
  | JBool b => b
  | JNum q => negb (Qeq_bool q 0)
  | JStr s => negb (s =? EmptyString)%string
  end.

(** [typeof v === 'number'] *)
Definition is_number (v : value) : bool :=
  match v with JNum _ => true | _ => false end.

(** [v === s] for a string literal [s]. *)
Definition strict_eq_str (v : value) (s : string) : bool :=
  match v with JStr t => (t =? s)%string | _ => false end.

(** [a > b] on numbers. *)
Definition Qgtb (a b : Q) : bool := negb (Qle_bool a b).

(** [v > 0]; only reached behind a [typeof] test in the source. *)
Definition gt_zero (v : value) : bool :=
  match v with JNum q => Qgtb q 0 | _ => false end.

(** [a || b] on numbers: [a] unless it is zero. *)
Definition num_or (a b : Q) : Q := if Qeq_bool a 0 then b else a.

(** [a || b] on integers. *)
Definition int_or (a b : Z) : Z := if a =? 0 then b else a.

(** [s || d] on an optional string: [d] when [s] is undefined or empty. *)
Definition str_or (s : option string) (d : string) : string :=
  match s with
  | Some t => if (t =? EmptyString)%string then d else t
  | None => d
  end.

(** [Math.round]: the nearest integer, halves upward. *)
Definition Math_round (x : Q) : Z := Qfloor (x + (1 # 2)).

(** [Math.max(...l, 0)] *)
Definition Math_max0 (l : list Q) : Q := fold_right Qmax 0%Q l.

(** [Math.max(...l)] on integers; the source calls it on a list that is
    not empty. *)
Definition Math_maxZ (l : list Z) : Z :=
  match l with
  | [] => 0
  | x :: r => fold_right Z.max x r
  end.

(** *** Strings *)

(** [s.split(sep)] for a one-character separator. *)
Fixpoint split (sep : ascii) (s : string) : list string :=
  match s with
  | EmptyString => [EmptyString]
  | String c r =>
      if Ascii.eqb c sep then EmptyString :: split sep r
      else match split sep r with
           | w :: ws => String c w :: ws
           | [] => [String c EmptyString]
           end
  end.

(** [l.join(sep)] *)
Fixpoint join (sep : string) (l : list string) : string :=
  match l with
  | [] => EmptyString
  | [w] => w
  | w :: r => w ++ sep ++ join sep r
  end.

(** [a[i]]: [None] stands for [undefined]. *)
Definition index {A : Type} (l : list A) (i : Z) : option A :=
  if i <? 0 then None else nth_error l (Z.to_nat i).

Definition is_digit (c : ascii) : bool :=
  let n := nat_of_ascii c in (48 <=? n)%nat && (n <=? 57)%nat.

Fixpoint all_digits (s : string) : bool :=
  match s with
  | EmptyString => true
  | String c r => is_digit c && all_digits r
  end.

(** [s.match(/^\d+$/)] as a truth value. *)
Definition matches_digits (s : string) : bool :=
  match s with
  | EmptyString => false
  | _ => all_digits s
  end.

(** [s.replace(/^p/, '')] for a literal prefix [p]. *)
Fixpoint strip_prefix (p s : string) : option string :=
  match p, s with
  | EmptyString, _ => Some s
  | String a p', String b s' =>
      if Ascii.eqb a b then strip_prefix p' s' else None
  | String _ _, EmptyString => None
  end.

Definition replace_prefix (p s : string) : string :=
  match strip_prefix p s with
  | Some r => r
  | None => s
  end.

(** [s.replace(/c/g, d)] for single characters. *)
Fixpoint replace_char (c d : ascii) (s : string) : string :=
  match s with
  | EmptyString => EmptyString
  | String a r =>
      String (if Ascii.eqb a c then d else a) (replace_char c d r)
  end.

Definition upper_char (c : ascii) : ascii :=
  let n := nat_of_ascii c in
  if (97 <=? n)%nat && (n <=? 122)%nat then ascii_of_nat (n - 32) else c.

(** [word.charAt(0).toUpperCase() + word.slice(1)] *)
Definition capitalize (word : string) : string :=
  match word with
  | EmptyString => EmptyString
  | String c r => String (upper_char c) r
  end.

(** [s.substring(0, n)] *)
Definition substring0 (n : nat) (s : string) : string := substring 0 n s.

(** *** Doubles *)

(** The power of two of an exponent of either sign. *)
Definition pow2 (e : Z) : Q :=
  if 0 <=? e then inject_Z (2 ^ e) else 1 # Z.to_pos (2 ^ (- e)).

(** The exponent of a number above zero: the largest [e] with
    [pow2 e <= a]. *)
Definition floorLog2 (a : Q) : Z :=
  let e0 := Z.log2 (Qnum a) - Z.log2 (Zpos (Qden a)) in
  if Qle_bool (pow2 e0) a then e0 else e0 - 1.

(** The nearest integer, the even one of two that are equally near. *)
Definition roundHalfEven (x : Q) : Z :=
  let f := Qfloor x in
  match (x - inject_Z f ?= 1 # 2)%Q with
  | Lt => f
  | Gt => f + 1
  | Eq => if Z.even f then f else f + 1
  end.

(** The double nearest to a number, as every arithmetic operation of
    JavaScript returns it: 53 bits of precision, exponents down to -1022,
    ties to even; [None] is an overflow to an infinity. *)
Definition roundDouble (q : Q) : option Q :=
  if Qeq_bool q 0 then Some 0%Q
  else
    let a := Qabs q in
    let e := floorLog2 a in
    let p := Z.max e (-1022) - 52 in
    let m := roundHalfEven (a / pow2 p) in
    let r := (inject_Z m * pow2 p)%Q in
    if Qle_bool (pow2 1024) r then None
    else Some (Qred (if Qle_bool 0 q then r else - r)).

(** A number as a dictionary of sums holds it: a finite number, or
    something that is not one.  The latter is [Infinity] after an overflow
    or the text that [+] makes of an inherited function and a number; it is
    truthy, and adding a number to it gives such a value again. *)
Inductive stored : Type :=
| Finite (q : Q)
| NotFinite.

(** [a + b] on finite numbers. *)
Definition plus (a b : Q) : stored :=
  match roundDouble (a + b) with
  | Some r => Finite r
  | None => NotFinite
  end.

(** *** Plain objects as dictionaries *)

(** The own properties of an object, in insertion order. *)
Definition object (V : Type) : Type := list (string * V).

Fixpoint getOwn {V : Type} (o : object V) (k : string) : option V :=
  match o with
  | [] => None
  | (k', v) :: r => if (k' =? k)%string then Some v else getOwn r k
  end.

(** An existing key keeps its place, a new one goes last. *)
Fixpoint setOwn {V : Type} (o : object V) (k : string) (v : V) : object V :=
  match o with
  | [] => [(k, v)]
  | (k', v') :: r =>
      if (k' =? k)%string then (k', v) :: r else (k', v') :: setOwn r k v
  end.

(** The property names of [Object.prototype]. *)
Definition prototypeNames : list string :=
  [ "constructor"; "__defineGetter__"; "__defineSetter__"; "hasOwnProperty";
    "__lookupGetter__"; "__lookupSetter__"; "isPrototypeOf";
    "propertyIsEnumerable"; "toString"; "valueOf"; "__proto__";
    "toLocaleString" ].

Definition inherited (k : string) : bool :=
  existsb (String.eqb k) prototypeNames.

(** What reading a property finds: an own value, an inherited function
    (for [__proto__] the prototype itself), or [undefined]. *)
Inductive lookup (V : Type) : Type :=
| Own (v : V)
| Inherited
| Missing.
Arguments Own {V} v.
Arguments Inherited {V}.
Arguments Missing {V}.

(** [o[k]] on a plain object. *)
Definition get {V : Type} (o : object V) (k : string) : lookup V :=
  match getOwn o k with
  | Some v => Own v
  | None => if inherited k then Inherited else Missing
  end.

(** [o[k] = v] on a plain object, for a number or a text [v]: the setter
    of [__proto__] ignores it, any other key becomes or stays an own
    property. *)
Definition set {V : Type} (o : object V) (k : string) (v : V) : object V :=
  if (k =? "__proto__")%string then o else setOwn o k v.

Definition digit_val (c : ascii) : N := N.of_nat (nat_of_ascii c - 48).

Fixpoint digits_val (acc : N) (s : string) : N :=
  match s with
  | EmptyString => acc
  | String c r => digits_val (10 * acc + digit_val c)%N r
  end.

(** The array index a property key denotes, if any: a canonical decimal
    numeral below 2^32 - 1. *)
Definition array_index (k : string) : option N :=
  match k with
  | EmptyString => None
  | String c r =>
      if all_digits k && (negb (Ascii.eqb c "0") || (r =? EmptyString)%string)
      then let n := digits_val 0 k in
           if (n <? 4294967295)%N then Some n else None
      else None
  end.

Definition is_index (k : string) : bool :=
  match array_index k with Some _ => true | None => false end.

Definition index_of (k : string) : N :=
  match array_index k with Some n => n | None => 0%N end.

Fixpoint insert_index {V : Type} (e : string * V) (l : list (string * V))
  : list (string * V) :=
  match l with
  | [] => [e]
  | e' :: r =>
      if (index_of (fst e) <=? index_of (fst e'))%N then e :: l
      else e' :: insert_index e r
  end.

(** [Object.entries(o)] *)
Definition entries {V : Type} (o : object V) : list (string * V) :=
  fold_right insert_index [] (filter (fun e => is_index (fst e)) o)
  ++ filter (fun e => negb (is_index (fst e))) o.

(** *** Arrays *)

(** [l.slice(0, n)] *)
Definition slice0 {A : Type} (n : nat) (l : list A) : list A := firstn n l.

(** One step of the stable sort: [x] goes before the first element it
    does not have to follow. *)
Fixpoint sort_insert {A : Type} (cmp : A -> A -> Q) (x : A) (l : list A)
  : list A :=
  match l with
  | [] => [x]
  | y :: r =>
      if Qle_bool (cmp x y) 0 then x :: l else y :: sort_insert cmp x r
  end.

(** [l.sort(cmp)] *)
Definition sort {A : Type} (cmp : A -> A -> Q) (l : list A) : list A :=
  fold_right (sort_insert cmp) [] l.

End Js.

(** ** js/utils/dom.utils.js *)

Module DomUtils.

(** [getProjectNameFromPath]; [None] is a null or undefined path. *)
Definition getProjectNameFromPath (path : option string) : string :=
  match path with
  | None => "Unknown Project"
  | Some EmptyString => "Unknown Project"
  | Some path =>
      let parts := Js.split "/" path in
      let len := Z.of_nat (List.length parts) in
      let projectName := Js.str_or (Js.index parts (len - 1)) "Unnamed Project" in
      let projectName :=
        if ((projectName =? EmptyString)%string || Js.matches_digits projectName)
           && (1 <? len)
        then Js.str_or (Js.index parts (len - 2)) "Unnamed Project"
        else projectName in
      let projectName :=
        Js.replace_prefix "quest-" (Js.replace_prefix "piscine-" projectName) in
      Js.join " " (map Js.capitalize (Js.split "-" projectName))
  end.

End DomUtils.

(** ** What the chart components hand to the drawing surface *)

Module Svg.

(** The rendering element: its [clientWidth], and [parseInt] of its
    [height] attribute, [None] when that is [NaN]. *)
Record element : Type := {
  clientWidth : Z;
  heightAttr : option Z
}.

Record margins : Type := {
  m_top : Z; m_right : Z; m_bottom : Z; m_left : Z
}.

Record dimensions : Type := {
  svgWidth : Z; svgHeight : Z; margin : margins;
  chartWidth : Z; chartHeight : Z
}.

(** A rotated axis label. *)
Record label : Type := {
  l_x : Q; l_y : Q; l_angle : Z; l_text : string
}.

(** A grid line with its tick value. *)
Record tick : Type := { t_value : Z; t_y : Q }.

(** A bar: the rectangle, the entry it stands for, and whether the value
    is printed above it. *)
Record bar : Type := {
  b_label : string; b_value : Q;
  b_x : Q; b_y : Q; b_width : Q; b_height : Q;
  b_valueText : bool
}.

Record chart : Type := {
  c_labels : list label; c_ticks : list tick; c_bars : list bar
}.

(** What one [render] call leaves in the element.  [Distorted] is a
    chart drawn from a series with a value that is not a finite number:
    its geometry is not described. *)
Inductive rendered : Type :=
| Untouched
| EmptyState (message : string)
| Chart (c : chart)
| Distorted.

(** [l.forEach((x, i) => ...)] collecting what each call draws. *)
Definition mapi {A B : Type} (f : A -> nat -> B) (l : list A) : list B :=
  map (fun p => f (snd p) (fst p)) (combine (seq 0 (List.length l)) l).

(** The bars of a chart, none when the call left a message; the bars of a
    distorted chart are not described and not listed. *)
Definition barsOf (r : rendered) : list bar :=
  match r with
  | Chart c => c_bars c
  | _ => []
  end.

Definition ofZ (z : Z) : Q := inject_Z z.
Definition ofnat (n : nat) : Q := inject_Z (Z.of_nat n).

End Svg.

(** ** js/components/xp-chart.component.js *)

Module XpChart.
Import Svg.

Record transaction : Type := {
  tx_type : Js.value;
  tx_amount : Js.value;
  tx_path : option string
}.

(** The amount of a transaction that passed the [typeof] test. *)
Definition amount (tx : transaction) : Q :=
  match tx_amount tx with Js.JNum q => q | _ => 0%Q end.

(** The predicate of [xpTransactions.filter] in [processData]. *)
Definition isChartXp (tx : transaction) : bool :=
  (negb (Js.truthy (tx_type tx)) || Js.strict_eq_str (tx_type tx) "xp")
  && Js.is_number (tx_amount tx)
  && Js.gt_zero (tx_amount tx).

(** [getProjectNameFromPath(tx.path)] *)
Definition projectOf (tx : transaction) : string :=
  DomUtils.getProjectNameFromPath (tx_path tx).

(** The body of the [forEach] in [processData]:
    [(projectXP[projectName] || 0) + tx.amount], stored under the label. *)
Definition addXp (projectXP : Js.object Js.stored) (tx : transaction)
  : Js.object Js.stored :=
  let projectName := projectOf tx in
  let sum := match Js.get projectXP projectName with
             | Js.Own (Js.Finite v) => Js.plus (Js.num_or v 0) (amount tx)
             | Js.Own Js.NotFinite => Js.NotFinite
             | Js.Inherited => Js.NotFinite
             | Js.Missing => Js.plus 0 (amount tx)
             end in
  Js.set projectXP projectName sum.

Definition processData (xpTransactions : list transaction)
  : Js.object Js.stored :=
  fold_left addXp (filter isChartXp xpTransactions) [].

(** The entries as a series of finite numbers, when they all are. *)
Fixpoint numbers (projects : list (string * Js.stored))
  : option (list (string * Q)) :=
  match projects with
  | [] => Some []
  | (label, Js.Finite v) :: r =>
      match numbers r with
      | Some series => Some ((label, v) :: series)
      | None => None
      end
  | (_, Js.NotFinite) :: _ => None
  end.

Definition xpMargin : margins :=
  {| m_top := 40; m_right := 30; m_bottom := 120; m_left := 70 |}.

(** [this.svgElement.clientWidth || 500] *)
Definition readWidth (el : element) : Z := Js.int_or (clientWidth el) 500.

(** [parseInt(this.svgElement.getAttribute('height')) || 380] *)
Definition readHeight (el : element) : Z :=
  match heightAttr el with
  | Some h => Js.int_or h 380
  | None => 380
  end.

Definition calculateDimensions (el : element) : option dimensions :=
  let svgWidth := readWidth el in
  let svgHeight := readHeight el in
  let margin := xpMargin in
  let chartWidth := svgWidth - m_left margin - m_right margin in
  let chartHeight := svgHeight - m_top margin - m_bottom margin in
  if (chartWidth <=? 0) || (chartHeight <=? 0) then None
  else Some {| svgWidth := svgWidth; svgHeight := svgHeight; margin := margin;
               chartWidth := chartWidth; chartHeight := chartHeight |}.

Definition barPadding : Q := 3 # 10.

(** [scaleY] of [render]. *)
Definition scaleY (maxXP chartHeight val : Q) : Q :=
  (chartHeight - (val / Js.num_or maxXP 1) * chartHeight)%Q.

Definition truncateLabel (text : string) : string :=
  if (15 <? String.length text)%nat then Js.substring0 12 text ++ "..."
  else text.

Definition renderXAxisLabels (projects : list (string * Q))
    (barWidth chartWidth : Q) (margin : margins) (svgHeight : Z)
  : list label :=
  let n := ofnat (List.length projects) in
  mapi (fun project i =>
    let x := (ofZ (m_left margin) + ofnat i * (chartWidth / n)
              + (chartWidth / n * barPadding / 2) + barWidth / 2)%Q in
    {| l_x := x;
       l_y := ofZ (svgHeight - m_bottom margin + 25);
       l_angle := -55;
       l_text := truncateLabel (fst project) |}) projects.

Definition numTicks : nat := 5.

Definition renderYAxis (maxValue chartHeight : Q) : list tick :=
  map (fun i =>
    let val := Js.Math_round ((maxValue / ofnat numTicks) * ofnat i) in
    {| t_value := val;
       t_y := (chartHeight - (ofZ val / Js.num_or maxValue 1) * chartHeight)%Q |})
    (seq 0 (numTicks + 1)).

Definition renderBars (projects : list (string * Q))
    (barWidth chartWidth chartHeight : Q) (margin : margins)
    (scaleY : Q -> Q) : list bar :=
  let n := ofnat (List.length projects) in
  mapi (fun project i =>
    let x := (ofZ (m_left margin) + ofnat i * (chartWidth / n)
              + (chartWidth / n * barPadding / 2))%Q in
    let y := (ofZ (m_top margin) + scaleY (snd project))%Q in
    let h := (chartHeight - scaleY (snd project))%Q in
    let w := barWidth in
    {| b_label := fst project; b_value := snd project;
       b_x := x; b_y := y;
       b_width := Qmax 0 w; b_height := Qmax 0 h;
       b_valueText := Js.Qgtb h 15 |}) projects.

(** [projects.sort((a, b) => b[1] - a[1])] *)
Definition sortProjects (projects : list (string * Q)) : list (string * Q) :=
  Js.sort (fun a b => (snd b - snd a)%Q) projects.

(** The sort and the cut of [render], with the cut as a parameter. *)
Definition topN (n : nat) (projects : list (string * Q)) : list (string * Q) :=
  Js.slice0 n (sortProjects projects).

Definition noDataMessage : string := "No project XP data available".
Definition tooSmallMessage : string := "Chart cannot be rendered (too small).".
Definition allZeroMessage : string := "All projects have 0 XP".

(** [render] from the series on: everything after [Object.entries], with
    the number of bars kept as a parameter ([render] passes 10). *)
Definition layoutTop (n : nat) (el : element) (projects : list (string * Q))
  : rendered :=
  if (List.length projects =? 0)%nat then EmptyState noDataMessage
  else
    let topProjects := topN n projects in
    match calculateDimensions el with
    | None => EmptyState tooSmallMessage
    | Some d =>
        let maxXP := Js.Math_max0 (map snd topProjects) in
        if Qeq_bool maxXP 0 && (0 <? List.length topProjects)%nat
        then EmptyState allZeroMessage
        else
          let cw := ofZ (chartWidth d) in
          let ch := ofZ (chartHeight d) in
          let barWidth :=
            (cw / ofnat (List.length topProjects) * (1 - barPadding))%Q in
          Chart {|
            c_labels := renderXAxisLabels topProjects barWidth cw
                          (margin d) (svgHeight d);
            c_ticks := renderYAxis maxXP ch;
            c_bars := renderBars topProjects barWidth cw ch (margin d)
                        (scaleY maxXP ch) |}
    end.

Definition layout : element -> list (string * Q) -> rendered := layoutTop 10.

(** [render]; [None] is a missing element.  A series with a value that
    is not a finite number is not empty, gets the too-small message like
    any other, and is drawn otherwise: its maximum is not 0. *)
Definition render (svgElement : option element)
    (xpTransactions : list transaction) : rendered :=
  match svgElement with
  | None => Untouched
  | Some el =>
      match numbers (Js.entries (processData xpTransactions)) with
      | Some series => layout el series
      | None =>
          match calculateDimensions el with
          | None => EmptyState tooSmallMessage
          | Some _ => Distorted
          end
      end
  end.

End XpChart.

(** ** js/components/skills-chart.component.js *)

Module SkillsChart.
Import Svg.

Record skill : Type := { s_type : string; s_amount : Q }.

(** The body of the [forEach] in [processData]:
    [!skillsMap[skillType] || skillsMap[skillType] < skill.amount] decides
    whether the amount is stored.  An inherited function is truthy and, as
    a number, NaN: it is not below any amount. *)
Definition keepBest (skillsMap : Js.object Q) (sk : skill) : Js.object Q :=
  let skillType := Js.replace_prefix "skill_" (s_type sk) in
  let replace :=
    match Js.get skillsMap skillType with
    | Js.Missing => true
    | Js.Own v => Qeq_bool v 0 || Js.Qgtb (s_amount sk) v
    | Js.Inherited => false
    end in
  if replace then Js.set skillsMap skillType (s_amount sk) else skillsMap.

Definition skillsMap (skillsData : list skill) : Js.object Q :=
  fold_left keepBest skillsData [].

(** [.sort((a, b) => b.amount - a.amount)] *)
Definition sortSkills (skills : list skill) : list skill :=
  Js.sort (fun a b => (s_amount b - s_amount a)%Q) skills.

(** [([type, amount]) => ({ type: `skill_${type}`, amount })] *)
Definition toSkill (e : string * Q) : skill :=
  {| s_type := "skill_" ++ fst e; s_amount := snd e |}.

Definition processData (skillsData : list skill) : list skill :=
  Js.slice0 10
    (sortSkills (map toSkill (Js.entries (skillsMap skillsData)))).

Definition skillsMargin : margins :=
  {| m_top := 40; m_right := 30; m_bottom := 100; m_left := 70 |}.

(** [this.svgElement.clientWidth || 500] *)
Definition readWidth (el : element) : Z := Js.int_or (clientWidth el) 500.

(** [parseInt(this.svgElement.getAttribute('height')) || 400] *)
Definition readHeight (el : element) : Z :=
  match heightAttr el with
  | Some h => Js.int_or h 400
  | None => 400
  end.

Definition calculateDimensions (el : element) : option dimensions :=
  let svgWidth := readWidth el in
  let svgHeight := readHeight el in
  let margin := skillsMargin in
  let chartWidth := svgWidth - m_left margin - m_right margin in
  let chartHeight := svgHeight - m_top margin - m_bottom margin in
  if (chartWidth <=? 0) || (chartHeight <=? 0) then None
  else Some {| svgWidth := svgWidth; svgHeight := svgHeight; margin := margin;
               chartWidth := chartWidth; chartHeight := chartHeight |}.

Definition barPadding : Q := 3 # 10.

(** [scaleY] of [render]: a value to a bar height. *)
Definition scaleY (maxAmount chartHeight val : Q) : Q :=
  ((val / Js.num_or maxAmount 1) * chartHeight)%Q.

(** The label of a skill: prefix removed, separators to spaces, words
    capitalized, long names cut. *)
Definition skillName (type : string) : string :=
  let name := Js.replace_char "-" " "
                (Js.replace_char "_" " " (Js.replace_prefix "skill_" type)) in
  let name := Js.join " " (map Js.capitalize (Js.split " " name)) in
  if (12 <? String.length name)%nat then Js.substring0 9 name ++ "..."
  else name.

Definition renderBarsAndLabels (skills : list skill)
    (barWidth chartWidth chartHeight : Q) (scaleY : Q -> Q)
  : list (label * bar) :=
  let n := ofnat (List.length skills) in
  mapi (fun sk i =>
    let x := (ofnat i * (chartWidth / n)
              + (chartWidth / n * barPadding / 2))%Q in
    let barHeight := scaleY (s_amount sk) in
    let y := (chartHeight - barHeight)%Q in
    ({| l_x := (x + barWidth / 2)%Q;
        l_y := (chartHeight + 25)%Q;
        l_angle := -45;
        l_text := skillName (s_type sk) |},
     {| b_label := skillName (s_type sk); b_value := s_amount sk;
        b_x := x; b_y := y;
        b_width := Qmax 0 barWidth; b_height := Qmax 0 barHeight;
        b_valueText := Js.Qgtb barHeight 15 |})) skills.

Definition numYTicks : nat := 5.

Definition renderYAxis (maxValue chartHeight : Q) : list tick :=
  map (fun i =>
    let val := Js.Math_round ((maxValue / ofnat numYTicks) * ofnat i) in
    {| t_value := val;
       t_y := (chartHeight - (ofZ val / Js.num_or maxValue 1) * chartHeight)%Q |})
    (seq 0 (numYTicks + 1)).

Definition noDataMessage : string := "No skills data available.".
Definition nothingToDisplayMessage : string := "No skill data to display.".
Definition tooSmallMessage : string := "Chart cannot be rendered (too small).".
Definition allZeroMessage : string := "All skills have 0% progress.".

(** [render] from the aggregated skills on: everything after
    [processData]. *)
Definition layout (el : element) (aggregatedSkills : list skill) : rendered :=
  if (List.length aggregatedSkills =? 0)%nat
  then EmptyState nothingToDisplayMessage
  else
    match calculateDimensions el with
    | None => EmptyState tooSmallMessage
    | Some d =>
        let maxAmount := Js.Math_max0 (map s_amount aggregatedSkills) in
        if Qeq_bool maxAmount 0 then EmptyState allZeroMessage
        else
          let cw := ofZ (chartWidth d) in
          let ch := ofZ (chartHeight d) in
          let barWidth :=
            (cw / ofnat (List.length aggregatedSkills)
             * (1 - barPadding))%Q in
          let drawn := renderBarsAndLabels aggregatedSkills barWidth
                         cw ch (scaleY maxAmount ch) in
          Chart {| c_labels := map fst drawn;
                   c_ticks := renderYAxis maxAmount ch;
                   c_bars := map snd drawn |}
    end.

(** [render]; [None] is a missing element. *)
Definition render (svgElement : option element) (skillsData : list skill)
  : rendered :=
  match svgElement with
  | None => Untouched
  | Some el =>
      if (List.length skillsData =? 0)%nat then EmptyState noDataMessage
      else layout el (processData skillsData)
  end.

End SkillsChart.

(** ** js/services/api.service.js *)

Module Api.

(** The answer of the [getBestFriends] query, as far as it is read:
    [None] is a null or missing field. *)
Record user : Type := { login : option string }.
Record member : Type := { m_user : option user }.
Record group : Type := { members : option (list member) }.
Record groupEntry : Type := { g_group : option group }.

(** [groupEntry.group?.members || []] *)
Definition membersOf (g : groupEntry) : list member :=
  match g_group g with
  | Some gr => match members gr with Some l => l | None => [] end
  | None => []
  end.

(** [member.user?.login] *)
Definition loginOf (m : member) : option string :=
  match m_user m with Some u => login u | None => None end.

(** A count as the dictionary holds it: a number, or the text that [+]
    makes of an inherited function and a number. *)
Inductive tally : Type :=
| Counted (n : Z)
| Text.

(** The body of the inner [forEach]:
    [collaborators[login] = (collaborators[login] || 0) + 1]. *)
Definition countMember (collaborators : Js.object tally) (m : member)
  : Js.object tally :=
  match loginOf m with
  | Some l =>
      if (l =? EmptyString)%string then collaborators
      else
        let next := match Js.get collaborators l with
                    | Js.Own (Counted c) => Counted (Js.int_or c 0 + 1)
                    | Js.Own Text => Text
                    | Js.Inherited => Text
                    | Js.Missing => Counted (0 + 1)
                    end in
        Js.set collaborators l next
  | None => collaborators
  end.

Definition countGroups (groups : list groupEntry) : Js.object tally :=
  fold_left (fun collaborators g => fold_left countMember (membersOf g) collaborators)
            groups [].

(** The entries as logins with numbers, when all counts are numbers. *)
Fixpoint counts (found : list (string * tally)) : option (list (string * Z)) :=
  match found with
  | [] => Some []
  | (l, Counted c) :: r =>
      match counts r with
      | Some rest => Some ((l, c) :: rest)
      | None => None
      end
  | (_, Text) :: _ => None
  end.

Record collaborator : Type := { c_login : string; c_count : Z }.

(** [([login, count]) => ({ login, count })] *)
Definition toCollaborator (e : string * Z) : collaborator :=
  {| c_login := fst e; c_count := snd e |}.

(** [.sort((a, b) => b.count - a.count)] *)
Definition sortCollaborators (l : list collaborator) : list collaborator :=
  Js.sort (fun a b => inject_Z (c_count b - c_count a)) l.

(** [fetchBestFriends], from the [groups] of the answer on.  [None]: a
    count is a text, the comparator of the sort yields NaN for it, and the
    order of the result is left to the engine. *)
Definition fetchBestFriends (groups : list groupEntry)
  : option (list collaborator) :=
  match counts (Js.entries (countGroups groups)) with
  | Some found => Some (sortCollaborators (map toCollaborator found))
  | None => None
  end.

End Api.

(** ** The built-in [Date]

    A date is its time value, the milliseconds since the epoch, within the
    range of [Date].  The methods that read or set a field work in local
    time, [toISOString] in UTC. *)

Module JsDate.

Definition msPerDay : Z := 86400000.

Definition Day (t : Z) : Z := t / msPerDay.
Definition TimeWithinDay (t : Z) : Z := t mod msPerDay.

(** The day number of a civil date, months counted from 1. *)
Definition daysFromCivil (y m d : Z) : Z :=
  let y' := if m <=? 2 then y - 1 else y in
  let era := y' / 400 in
  let yoe := y' - era * 400 in
  let mp := (m + 9) mod 12 in
  let doy := (153 * mp + 2) / 5 + d - 1 in
  let doe := yoe * 365 + yoe / 4 - yoe / 100 + doy in
  era * 146097 + doe - 719468.

(** The civil date (year, month from 1, day of month) of a day number. *)
Definition civilFromDays (z : Z) : Z * Z * Z :=
  let z' := z + 719468 in
  let era := z' / 146097 in
  let doe := z' - era * 146097 in
  let yoe := (doe - doe / 1460 + doe / 36524 - doe / 146096) / 365 in
  let doy := doe - (365 * yoe + yoe / 4 - yoe / 100) in
  let mp := (5 * doy + 2) / 153 in
  let d := doy - (153 * mp + 2) / 5 + 1 in
  let m := if mp <? 10 then mp + 3 else mp - 9 in
  (if m <=? 2 then yoe + era * 400 + 1 else yoe + era * 400, m, d).

Definition YearFromTime (t : Z) : Z := fst (fst (civilFromDays (Day t))).
Definition MonthFromTime (t : Z) : Z := snd (fst (civilFromDays (Day t))) - 1.
Definition DateFromTime (t : Z) : Z := snd (civilFromDays (Day t)).

(** [MakeDay]: month counted from 0 and allowed to run over. *)
Definition MakeDay (year month date : Z) : Z :=
  daysFromCivil (year + month / 12) (month mod 12 + 1) 1 + date - 1.

Definition MakeDate (day time : Z) : Z := day * msPerDay + time.

(** The local time zone: [localTZA t true] is the offset of local time
    from UTC at the UTC time [t], [localTZA t false] the offset at the
    local time [t]. *)
Record zone : Type := { localTZA : Z -> bool -> Z }.

Definition LocalTime (z : zone) (t : Z) : Z := t + localTZA z t true.
Definition UTC (z : zone) (t : Z) : Z := t - localTZA z t false.

(** [d.getMonth()] *)
Definition getMonth (z : zone) (t : Z) : Z := MonthFromTime (LocalTime z t).

(** [d.getDate()] *)
Definition getDate (z : zone) (t : Z) : Z := DateFromTime (LocalTime z t).

(** [d.setMonth(month)] *)
Definition setMonth (z : zone) (t month : Z) : Z :=
  let local := LocalTime z t in
  UTC z (MakeDate (MakeDay (YearFromTime local) month (DateFromTime local))
                  (TimeWithinDay local)).

(** [d.setDate(date)] *)
Definition setDate (z : zone) (t date : Z) : Z :=
  let local := LocalTime z t in
  UTC z (MakeDate (MakeDay (YearFromTime local) (MonthFromTime local) date)
                  (TimeWithinDay local)).

Definition digitChar (n : Z) : ascii := ascii_of_nat (48 + Z.to_nat (n mod 10)).

Fixpoint padded (width : nat) (n : Z) : string :=
  match width with
  | O => EmptyString
  | S w => padded w (n / 10) ++ String (digitChar n) EmptyString
  end.

(** [d.toISOString().split('T')[0]] for the years 0 to 9999. *)
Definition isoDay (t : Z) : string :=
  let '(y, m, d) := civilFromDays (Day t) in
  padded 4 y ++ "-" ++ padded 2 m ++ "-" ++ padded 2 d.

End JsDate.

(** ** js/app.js *)

Module App.

(** The predicate of the [filter] in [populateProjectsTable]. *)
Definition isTableXp (t : XpChart.transaction) : bool :=
  (negb (Js.truthy (XpChart.tx_type t))
   || Js.strict_eq_str (XpChart.tx_type t) "xp")
  && Js.is_number (XpChart.tx_amount t).





(** One observation: a calendar day [YYYY-MM-DD] and its count. *)
Record observation : Type := { a_date : string; a_count : Z }.

(** One cell of the heat map. *)
Record cell : Type := {
  d_date : string; d_count : Z;
  d_red : Z; d_green : Z; d_blue : Z; d_alpha : Q
}.

Inductive activityView : Type :=
| NoActivity
| Cells (l : list cell).

(** The cells shown, none when the message is. *)
Definition cellsOf (v : activityView) : list cell :=
  match v with
  | Cells l => l
  | NoActivity => []
  end.

(** The body of the [while] loop, without the step to the next day.
    The text of a date starts with a digit and is not the name of an
    inherited property. *)
Definition makeCell (activityMap : Js.object Z) (maxCount : Z)
    (currentDate : Z) : cell :=
  let dateStr := JsDate.isoDay currentDate in
  let count := match Js.get activityMap dateStr with
               | Js.Own c => Js.int_or c 0
               | Js.Inherited => 0
               | Js.Missing => 0
               end in
  let intensity := if 0 <? maxCount
                   then (inject_Z count / inject_Z maxCount)%Q else 0%Q in
  {| d_date := dateStr; d_count := count;
     d_red := Js.Math_round (138 + intensity * (236 - 138))%Q;
     d_green := Js.Math_round (58 + intensity * (72 - 58))%Q;
     d_blue := Js.Math_round (180 + intensity * (153 - 180))%Q;
     d_alpha := ((1 # 10) + intensity * (9 # 10))%Q |}.

(** [while (currentDate <= today) { ...;
    currentDate.setDate(currentDate.getDate() + 1) }]; [None] when the
    loop has not ended after [fuel] rounds. *)
Fixpoint cellsFrom (fuel : nat) (z : JsDate.zone) (mk : Z -> cell)
    (today currentDate : Z) : option (list cell) :=
  if currentDate <=? today
  then match fuel with
       | O => None
       | S f =>
           match cellsFrom f z mk today
                   (JsDate.setDate z currentDate
                      (JsDate.getDate z currentDate + 1)) with
           | Some rest => Some (mk currentDate :: rest)
           | None => None
           end
       end
  else Some [].

(** [displayActivity] in a time zone [z]; [today] and [again] are what the
    two calls of [new Date()] read, in that order.  [None] when the loop
    has not ended after [fuel] rounds. *)
Definition displayActivity (z : JsDate.zone) (fuel : nat)
    (activity : list observation) (today again : Z) : option activityView :=
  if (List.length activity =? 0)%nat then Some NoActivity
  else
    let maxCount := Js.Math_maxZ (map a_count activity) in
    let sixMonthsAgo := JsDate.setMonth z again (JsDate.getMonth z today - 6) in
    let activityMap :=
      fold_left (fun o a => Js.set o (a_date a) (a_count a)) activity [] in
    match cellsFrom fuel z (makeCell activityMap maxCount) today sixMonthsAgo
    with
    | Some cells => Some (Cells cells)
    | None => None
    end.

End App.

(** ** The specification's words

    Definitions that follow the specification, to be compared with the
    code above. *)

Module Spec.

(** The sum of the values of a series. *)
Definition sumValues (series : list (string * Q)) : Q :=
  fold_right Qplus 0%Q (map snd series).

(** The sum of the amounts of a list of records. *)
Definition sumAmounts (records : list XpChart.transaction) : Q :=
  fold_right Qplus 0%Q (map XpChart.amount records).

(** The validity filter as the specification words it: the type is
    'xp' and the amount is a number above zero. *)
Definition isValidXp (tx : XpChart.transaction) : bool :=
  Js.strict_eq_str (XpChart.tx_type tx) "xp"
  && Js.is_number (XpChart.tx_amount tx)
  && Js.gt_zero (XpChart.tx_amount tx).

(** The sum property with the specification's filter. *)
Definition sumOfValid (records : list XpChart.transaction) : Prop :=
  exists series,
    XpChart.numbers (Js.entries (XpChart.processData records)) = Some series
    /\ (sumValues series == sumAmounts (filter isValidXp records))%Q.

(** A whole number. *)
Definition whole (q : Q) : Prop := exists z, (q == inject_Z z)%Q.



(** [effectiveMax]: the maximum when it is positive, otherwise 1. *)
Definition effectiveMax (maxValue : Q) : Q :=
  if Js.Qgtb maxValue 0 then maxValue else 1%Q.


(** The frequency count as the specification words it, in its first
    part: the user's own login is not in the list. *)
Definition excludesSelf (self : string) (groups : list Api.groupEntry) : Prop :=
  forall listed,
    Api.fetchBestFriends groups = Some listed ->
    ~ In self (map Api.c_login listed).

(** The empty window as the specification words it: 181 cells, all
    with count 0, from 180 days before the anchor to the anchor, in some
    time zone and with the clock read twice at the anchor. *)
Definition emptyWindow (anchor : Z) : Prop :=
  exists z fuel cells,
    App.displayActivity z fuel [] anchor anchor = Some (App.Cells cells)
    /\ List.length cells = 181%nat
    /\ Forall (fun c => App.d_count c = 0) cells
    /\ map App.d_date cells
       = map (fun i => JsDate.isoDay
                         (anchor - (180 - Z.of_nat i) * JsDate.msPerDay))
             (seq 0 181).

(** Totality of the label as the specification words it: the result is
    never the empty string. *)
Definition labelNonEmpty (path : option string) : Prop :=
  DomUtils.getProjectNameFromPath path <> EmptyString.

End Spec.

(** ** Dictionaries of finite numbers *)

(** A series as the own properties of a dictionary of sums. *)
Definition finiteEntries (series : list (string * Q))
  : Js.object Js.stored :=
  map (fun p => (fst p, Js.Finite (snd p))) series.

(** Every value is a whole number, zero or above. *)
Definition wholeValues (series : list (string * Q)) : Prop :=
  Forall (fun p => Spec.whole (snd p) /\ (0 <= snd p)%Q) series.

(** ** Characters of a text *)

(** Whether a character occurs in a text. *)
Fixpoint occurs (c : ascii) (s : string) : bool :=
  match s with
  | EmptyString => false
  | String a r => Ascii.eqb a c || occurs c r
  end.

(** ** An invariant of the skills dictionary *)



(** ** Collaborators counted by hand *)

(** Whether a member entry carries a login. *)
Definition hasLogin (l : string) (m : Api.member) : bool :=
  match Api.loginOf m with
  | Some l' => (l' =? l)%string
  | None => false
  end.

(** The number of member entries, over all groups, that carry a login:
    the number of groups the login is in, when no group lists a member
    twice. *)
Definition memberEntries (l : string) (groups : list Api.groupEntry) : Z :=
  Z.of_nat (List.length (filter (hasLogin l)
                                (flat_map Api.membersOf groups))).

(** Logins with their numbers as the own properties of a dictionary of
    counts. *)
Definition countedEntries (found : list (string * Z)) : Js.object Api.tally :=
  map (fun p => (fst p, Api.Counted (snd p))) found.

(** ** Sample inputs *)

Module Sample.
Import Svg.

(** A record without a type: [{ amount: 5, path: "a" }]. *)
Definition typeless : XpChart.transaction :=
  {| XpChart.tx_type := Js.JUndefined;
     XpChart.tx_amount := Js.JNum 5;
     XpChart.tx_path := Some "a" |}.



(** The element at its default size, 500 by 380. *)
Definition defaultElement : element :=
  {| clientWidth := 500; heightAttr := Some 380 |}.




(** Records of several kinds: without a type, of type 'xp' twice for one
    project, of another type, and with a text for an amount. *)
Definition mixed : list XpChart.transaction :=
  [ typeless;
    {| XpChart.tx_type := Js.JStr "xp"; XpChart.tx_amount := Js.JNum 7;
       XpChart.tx_path := Some "div-01/graphql" |};
    {| XpChart.tx_type := Js.JStr "up"; XpChart.tx_amount := Js.JNum 3;
       XpChart.tx_path := Some "div-01/graphql" |};
    {| XpChart.tx_type := Js.JStr "xp"; XpChart.tx_amount := Js.JNum 11;
       XpChart.tx_path := Some "div-01/graphql" |};
    {| XpChart.tx_type := Js.JStr "xp"; XpChart.tx_amount := Js.JStr "12";
       XpChart.tx_path := Some "div-01/forum" |} ].

Definition zeros : list (string * Q) := [("A", 0%Q); ("B", 0%Q)].

Definition zeroSkills : list SkillsChart.skill :=
  [ {| SkillsChart.s_type := "skill_go"; SkillsChart.s_amount := 0 |};
    {| SkillsChart.s_type := "skill_js"; SkillsChart.s_amount := 0 |} ].

Definition member (l : string) : Api.member :=
  {| Api.m_user := Some {| Api.login := Some l |} |}.

Definition groupOf (logins : list string) : Api.groupEntry :=
  {| Api.g_group := Some {| Api.members := Some (map member logins) |} |}.

(** Two groups of the user alice, both with bob. *)
Definition aliceGroups : list Api.groupEntry :=
  [ groupOf ["alice"; "bob"]; groupOf ["bob"; "alice"] ].

(** 2026-11-02T12:00:00Z *)
Definition noon : Z := 1793620800000.

(** Three events on 2026-11-01. *)
Definition oneDay : list App.observation :=
  [ {| App.a_date := "2026-11-01"; App.a_count := 3 |} ].

(** UTC as the local time zone. *)
Definition utc : JsDate.zone := {| JsDate.localTZA := fun _ _ => 0 |}.

End Sample.


(** * Properties *)

(** ** Numbers *)

Lemma num_or_zero (v : Q) : (Js.num_or v 0 == v)%Q.
Proof.
  unfold Js.num_or. destruct (Qeq_bool v 0) eqn:E.
  - symmetry. now apply Qeq_bool_eq.
  - reflexivity.
Qed.

Lemma int_or_zero (c : Z) : Js.int_or c 0 = c.
Proof.
  unfold Js.int_or. destruct (c =? 0) eqn:E; [ | reflexivity ].
  apply Z.eqb_eq in E. now subst.
Qed.

Lemma Qgtb_true (a b : Q) : Js.Qgtb a b = true <-> (b < a)%Q.
Proof.
  unfold Js.Qgtb. rewrite negb_true_iff. split; intro H.
  - apply Qnot_le_lt. intro L. apply Qle_bool_iff in L. congruence.
  - destruct (Qle_bool a b) eqn:E; [ | reflexivity ].
    apply Qle_bool_iff in E. exfalso. exact (Qlt_not_le _ _ H E).
Qed.

Lemma Qgtb_false (a b : Q) : Js.Qgtb a b = false <-> (a <= b)%Q.
Proof.
  unfold Js.Qgtb. rewrite negb_false_iff. apply Qle_bool_iff.
Qed.

Lemma Qmax_zero (x y : Q) : (x == 0 -> y == 0 -> Qmax x y == 0)%Q.
Proof.
  intros Hx Hy. destruct (Q.max_dec x y) as [E | E]; rewrite E; assumption.
Qed.

Lemma Math_max0_all_zero (l : list Q) :
  Forall (fun q => (q == 0)%Q) l -> (Js.Math_max0 l == 0)%Q.
Proof.
  induction 1 as [ | q l Hq _ IH ]; simpl.
  - reflexivity.
  - now apply Qmax_zero.
Qed.

(** ** Doubles *)

Lemma pow2_pos (e : Z) : (0 < Js.pow2 e)%Q.
Proof.
  unfold Js.pow2. destruct (0 <=? e) eqn:E.
  - apply Z.leb_le in E. change 0%Q with (inject_Z 0). rewrite <- Zlt_Qlt.
    now apply Z.pow_pos_nonneg.
  - reflexivity.
Qed.

Lemma pow2_neg (e : Z) :
  e < 0 -> Js.pow2 e = 1 # Z.to_pos (2 ^ (- e)) /\ Zpos (Z.to_pos (2 ^ (- e))) = 2 ^ (- e).
Proof.
  intro N. unfold Js.pow2. replace (0 <=? e) with false by (symmetry; apply Z.leb_gt; lia).
  split; [ reflexivity | ]. apply Z2Pos.id. apply Z.pow_pos_nonneg; lia.
Qed.

Lemma pow2_nonneg (e : Z) : 0 <= e -> Js.pow2 e = inject_Z (2 ^ e).
Proof.
  intro P. unfold Js.pow2. now replace (0 <=? e) with true by (symmetry; apply Z.leb_le; lia).
Qed.

Lemma floorLog2_below (a : Q) : (0 < a)%Q -> (Js.pow2 (Js.floorLog2 a) <= a)%Q.
Proof.
  intro P. unfold Js.floorLog2. cbv zeta.
  destruct (Qle_bool (Js.pow2 _) a) eqn:E; [ now apply Qle_bool_iff | clear E ].
  destruct a as [n d]. unfold Qlt in P. simpl in P. rewrite Z.mul_1_r in P.
  cbn [Qnum Qden].
  pose proof (Z.log2_spec n P) as [ Ln _ ].
  pose proof (Z.log2_spec (Zpos d) eq_refl) as [ _ Ud ].
  pose proof (Z.log2_nonneg n) as Nn.
  pose proof (Z.log2_nonneg (Zpos d)) as Nd.
  set (ln := Z.log2 n) in *. set (ld := Z.log2 (Zpos d)) in *.
  destruct (Z_lt_ge_dec (ln - ld - 1) 0) as [ Neg | Pos ].
  - destruct (pow2_neg _ Neg) as [ -> Ep ]. unfold Qle. cbn [Qnum Qden].
    rewrite Ep, Z.mul_1_l.
    replace (- (ln - ld - 1)) with (Z.succ ld - ln) by lia.
    assert (E2 : 2 ^ Z.succ ld = 2 ^ ln * 2 ^ (Z.succ ld - ln)).
    { rewrite <- Z.pow_add_r by lia. f_equal. lia. }
    assert (Pp : 0 < 2 ^ (Z.succ ld - ln)) by (apply Z.pow_pos_nonneg; lia).
    nia.
  - rewrite pow2_nonneg by lia. unfold Qle. cbn [Qnum Qden inject_Z].
    rewrite Z.mul_1_r.
    assert (E2 : 2 ^ ln = 2 ^ (ln - ld - 1) * 2 ^ Z.succ ld).
    { rewrite <- Z.pow_add_r by lia. f_equal. lia. }
    assert (Pp : 0 < 2 ^ (ln - ld - 1)) by (apply Z.pow_pos_nonneg; lia).
    nia.
Qed.

Lemma roundHalfEven_whole (x : Q) (k : Z) :
  (x == inject_Z k)%Q -> Js.roundHalfEven x = k.
Proof.
  intro E. unfold Js.roundHalfEven. cbv zeta.
  assert (F : Qfloor x = k) by (rewrite (Qfloor_comp _ _ E); apply Qfloor_Z).
  rewrite F.
  assert (C : (x - inject_Z k ?= 1 # 2)%Q = Lt).
  { apply Qlt_alt. rewrite E. setoid_replace (inject_Z k - inject_Z k)%Q with 0%Q by ring.
    reflexivity. }
  now rewrite C.
Qed.

Lemma Qred_whole (z : Z) : Qred (inject_Z z) = inject_Z z.
Proof.
  pose proof (Qred_correct (inject_Z z)) as E.
  pose proof (gcd_Qred (inject_Z z)) as G.
  destruct (Qred (inject_Z z)) as [n d]. unfold Qeq in E.
  cbn [Qnum Qden inject_Z] in *. rewrite Z.mul_1_r in E. subst n.
  assert (D : (Zpos d | Z.gcd (z * Zpos d) (Zpos d))).
  { apply Z.gcd_greatest; [ apply Z.divide_mul_r | ]; apply Z.divide_refl. }
  rewrite G in D. apply Z.divide_1_r_nonneg in D; [ | lia ].
  assert (d = 1%positive) by lia. subst d. now rewrite Z.mul_1_r.
Qed.

(** A whole number up to 2^53 is a double: rounding leaves it alone. *)
Lemma roundDouble_whole (q : Q) (z : Z) :
  0 < z <= 2 ^ 53 -> (q == inject_Z z)%Q -> Js.roundDouble q = Some (inject_Z z).
Proof.
  intros [ Pz Bz ] E. unfold Js.roundDouble.
  assert (Pq : (0 < q)%Q).
  { rewrite E. change 0%Q with (inject_Z 0). now rewrite <- Zlt_Qlt. }
  assert (N0 : Qeq_bool q 0 = false).
  { destruct (Qeq_bool q 0) eqn:Z0; [ | reflexivity ].
    apply Qeq_bool_iff in Z0. rewrite Z0 in Pq. discriminate. }
  rewrite N0. cbv zeta.
  assert (Ea : (Qabs q == inject_Z z)%Q) by (rewrite Qabs_pos; [ exact E | lra ]).
  assert (Pa : (0 < Qabs q)%Q) by (rewrite Ea; rewrite <- E; exact Pq).
  pose proof (floorLog2_below _ Pa) as Lo.
  set (e := Js.floorLog2 (Qabs q)) in *.
  assert (Lo' : (Js.pow2 e <= inject_Z z)%Q)
    by (apply Qle_trans with (Qabs q); [ exact Lo | rewrite Ea; apply Qle_refl ]).
  clear Lo. rename Lo' into Lo.
  assert (Be : e <= 53).
  { destruct (Z_le_gt_dec e 53) as [ L | G ]; [ exact L | exfalso ].
    rewrite pow2_nonneg in Lo by lia. rewrite <- Zle_Qle in Lo.
    assert (2 ^ 54 <= 2 ^ e) by (apply Z.pow_le_mono_r; lia).
    assert (2 ^ 53 < 2 ^ 54) by reflexivity. lia. }
  set (p := Z.max e (-1022) - 52).
  assert (Hk : exists k, (Qabs q / Js.pow2 p == inject_Z k)%Q
                         /\ (inject_Z k * Js.pow2 p == inject_Z z)%Q).
  { destruct (Z_le_gt_dec p 0) as [ L | G ].
    - destruct (Z.eq_dec p 0) as [ Z0 | NZ ].
      + exists z. rewrite Z0. change (Js.pow2 0) with 1%Q. rewrite Ea.
        split; [ field | ring ].
      + destruct (pow2_neg p ltac:(lia)) as [ -> Ep ].
        exists (z * 2 ^ (- p)). rewrite Ea. rewrite <- Ep.
        split; unfold Qeq, Qdiv, Qmult, Qinv, inject_Z; cbn [Qnum Qden];
          lia.
    - assert (E53 : e = 53) by lia. assert (E1 : p = 1) by lia.
      assert (Zv : z = 2 ^ 53).
      { rewrite E53 in Lo.
        rewrite pow2_nonneg in Lo by lia. rewrite <- Zle_Qle in Lo. lia. }
      exists (2 ^ 52). rewrite E1, Ea, Zv.
      split; reflexivity. }
  destruct Hk as (k & Ek & Er).
  rewrite (roundHalfEven_whole _ _ Ek).
  assert (Ov : Qle_bool (Js.pow2 1024) (inject_Z k * Js.pow2 p) = false).
  { destruct (Qle_bool _ _) eqn:O; [ | reflexivity ].
    apply Qle_bool_iff in O. rewrite Er in O. rewrite pow2_nonneg in O by lia.
    rewrite <- Zle_Qle in O.
    assert (2 ^ 53 < 2 ^ 1024) by (apply Z.pow_lt_mono_r; lia). lia. }
  rewrite Ov.
  assert (Sg : Qle_bool 0 q = true) by (apply Qle_bool_iff; lra).
  rewrite Sg. f_equal. rewrite (Qred_complete _ _ Er). apply Qred_whole.
Qed.

Lemma plus_whole (a b : Q) (z : Z) :
  0 < z <= 2 ^ 53 -> (a + b == inject_Z z)%Q ->
  Js.plus a b = Js.Finite (inject_Z z).
Proof.
  intros B E. unfold Js.plus. now rewrite (roundDouble_whole _ z B E).
Qed.

(** ** Objects *)

Section Objects.
Context {V : Type}.
Implicit Types (o : Js.object V) (k : string) (v : V).

Lemma getOwn_setOwn_same o k v : Js.getOwn (Js.setOwn o k v) k = Some v.
Proof.
  induction o as [ | [k' v'] o IH ]; simpl.
  - now rewrite String.eqb_refl.
  - destruct (k' =? k)%string eqn:E; simpl; now rewrite E.
Qed.

Lemma getOwn_setOwn_other o k k' v :
  k <> k' -> Js.getOwn (Js.setOwn o k v) k' = Js.getOwn o k'.
Proof.
  intro N. induction o as [ | [k0 v0] o IH ]; simpl.
  - destruct (k =? k')%string eqn:E; [ | reflexivity ].
    apply String.eqb_eq in E. contradiction.
  - destruct (k0 =? k)%string eqn:E; simpl.
    + apply String.eqb_eq in E. subst k0.
      destruct (k =? k')%string eqn:E'; [ | reflexivity ].
      apply String.eqb_eq in E'. contradiction.
    + destruct (k0 =? k')%string; [ reflexivity | exact IH ].
Qed.

Lemma getOwn_In o k v : Js.getOwn o k = Some v -> In (k, v) o.
Proof.
  induction o as [ | [k' v'] o IH ]; simpl; [ discriminate | ].
  destruct (k' =? k)%string eqn:E.
  - apply String.eqb_eq in E. intros [= ->]. subst. now left.
  - intro H. right. now apply IH.
Qed.

Lemma setOwn_values (R : V -> Prop) o k v :
  Forall (fun e => R (snd e)) o -> R v ->
  Forall (fun e => R (snd e)) (Js.setOwn o k v).
Proof.
  intros F Hv. induction F as [ | [k' v'] o H F IH ]; simpl.
  - now repeat constructor.
  - destruct (k' =? k)%string; constructor; simpl; auto.
Qed.

(** The one key that cannot be assigned is an inherited one. *)
Lemma set_own o k v : Js.inherited k = false -> Js.set o k v = Js.setOwn o k v.
Proof.
  intro I. unfold Js.set. destruct (k =? "__proto__")%string eqn:E;
    [ | reflexivity ].
  apply String.eqb_eq in E. subst k. discriminate I.
Qed.

Lemma set_values (R : V -> Prop) o k v :
  Forall (fun e => R (snd e)) o -> R v ->
  Forall (fun e => R (snd e)) (Js.set o k v).
Proof.
  intros F Hv. unfold Js.set. destruct (k =? "__proto__")%string;
    [ exact F | now apply setOwn_values ].
Qed.

Lemma insert_index_perm (e : string * V) l :
  Permutation (Js.insert_index e l) (e :: l).
Proof.
  induction l as [ | e' l IH ]; simpl; [ reflexivity | ].
  destruct (Js.index_of (fst e) <=? Js.index_of (fst e'))%N; [ reflexivity | ].
  rewrite IH. apply perm_swap.
Qed.

Lemma filter_split_perm (f : string * V -> bool) (l : list (string * V)) :
  Permutation (filter f l ++ filter (fun e => negb (f e)) l)%list l.
Proof.
  induction l as [ | e l IH ]; simpl; [ reflexivity | ].
  destruct (f e); simpl.
  - now constructor.
  - rewrite <- Permutation_middle. now constructor.
Qed.

Lemma entries_perm o : Permutation (Js.entries o) o.
Proof.
  unfold Js.entries.
  rewrite <- (filter_split_perm (fun e => Js.is_index (fst e)) o) at 3.
  apply Permutation_app_tail.
  induction (filter (fun e => Js.is_index (fst e)) o) as [ | e l IH ]; simpl.
  - reflexivity.
  - rewrite insert_index_perm. now constructor.
Qed.

Lemma entries_In o k v : In (k, v) (Js.entries o) <-> In (k, v) o.
Proof.
  split; apply Permutation_in;
    [ apply entries_perm | symmetry; apply entries_perm ].
Qed.

End Objects.

(** ** The sort, for a comparator that subtracts keys *)

Section Sorting.
Context {A : Type} (key : A -> Q) (cmp : A -> A -> Q).
Hypothesis cmp_key : forall a b, (cmp a b == key b - key a)%Q.



Lemma sort_insert_perm (x : A) l : Permutation (Js.sort_insert cmp x l) (x :: l).
Proof.
  induction l as [ | y l IH ]; simpl; [ reflexivity | ].
  destruct (Qle_bool (cmp x y) 0); [ reflexivity | ].
  rewrite IH. apply perm_swap.
Qed.

Lemma sort_perm l : Permutation (Js.sort cmp l) l.
Proof.
  induction l as [ | x l IH ]; simpl; [ reflexivity | ].
  rewrite sort_insert_perm. now constructor.
Qed.

Lemma sort_In (x : A) l : In x (Js.sort cmp l) <-> In x l.
Proof.
  split; apply Permutation_in; [ apply sort_perm | symmetry; apply sort_perm ].
Qed.

Lemma sort_length l : List.length (Js.sort cmp l) = List.length l.
Proof. apply Permutation_length, sort_perm. Qed.







End Sorting.



Lemma slice0_length {A : Type} (n : nat) (l : list A) :
  List.length (Js.slice0 n l) = Nat.min n (List.length l).
Proof. apply length_firstn. Qed.

Lemma slice0_In {A : Type} (n : nat) (l : list A) (x : A) :
  In x (Js.slice0 n l) -> In x l.
Proof.
  unfold Js.slice0. intro H. rewrite <- (firstn_skipn n l).
  apply in_or_app. now left.
Qed.

(** ** XP per project: sums *)

Lemma sumValues_perm (l l' : list (string * Q)) :
  Permutation l l' -> (Spec.sumValues l == Spec.sumValues l')%Q.
Proof.
  unfold Spec.sumValues.
  induction 1 as [ | x l l' _ IH | x y l | l l' l'' _ IH1 _ IH2 ]; simpl.
  - reflexivity.
  - now rewrite IH.
  - ring.
  - now rewrite IH1.
Qed.

Lemma sumValues_setOwn (s : Js.object Q) (k : string) (w : Q) :
  (Spec.sumValues (Js.setOwn s k w)
   == Spec.sumValues s
      - match Js.getOwn s k with Some v => v | None => 0 end + w)%Q.
Proof.
  unfold Spec.sumValues. induction s as [ | [k' v'] s IH ]; simpl.
  - ring.
  - destruct (k' =? k)%string; simpl.
    + ring.
    + simpl in IH. rewrite IH. ring.
Qed.

Lemma sumValues_nonneg (s : list (string * Q)) :
  wholeValues s -> (0 <= Spec.sumValues s)%Q.
Proof.
  unfold Spec.sumValues. induction 1 as [ | p s [ _ P ] _ IH ]; simpl.
  - apply Qle_refl.
  - lra.
Qed.

Lemma sumValues_bound (s : Js.object Q) (k : string) (v : Q) :
  wholeValues s -> Js.getOwn s k = Some v -> (v <= Spec.sumValues s)%Q.
Proof.
  unfold Spec.sumValues.
  induction 1 as [ | [k' v'] s [ _ P ] F IH ]; simpl; [ discriminate | ].
  pose proof (sumValues_nonneg s F) as N. unfold Spec.sumValues in N.
  destruct (k' =? k)%string.
  - intros [= ->]. simpl in P. lra.
  - intro G. specialize (IH G). simpl in P. lra.
Qed.

Lemma sumAmounts_nonneg (l : list XpChart.transaction) :
  Forall (fun tx => (0 < XpChart.amount tx)%Q) l -> (0 <= Spec.sumAmounts l)%Q.
Proof.
  unfold Spec.sumAmounts. induction 1 as [ | tx l P _ IH ]; simpl.
  - apply Qle_refl.
  - lra.
Qed.

(** ** XP per project: dictionaries of finite numbers *)

Lemma numbers_finite (s : list (string * Q)) :
  XpChart.numbers (finiteEntries s) = Some s.
Proof.
  induction s as [ | [k v] s IH ]; [ reflexivity | ].
  change (finiteEntries ((k, v) :: s))
    with ((k, Js.Finite v) :: finiteEntries s).
  cbn [XpChart.numbers]. now rewrite IH.
Qed.

Lemma numbers_Some (o : Js.object Js.stored) (s : list (string * Q)) :
  XpChart.numbers o = Some s -> o = finiteEntries s.
Proof.
  revert s. induction o as [ | [k [ v | ]] o IH ]; intro s; simpl.
  - now intros [= <-].
  - destruct (XpChart.numbers o) as [ s' | ]; [ | discriminate ].
    intros [= <-]. simpl. now rewrite (IH s').
  - discriminate.
Qed.

Lemma getOwn_finite (s : Js.object Q) (k : string) :
  Js.getOwn (finiteEntries s) k = option_map Js.Finite (Js.getOwn s k).
Proof.
  induction s as [ | [k' v'] s IH ]; simpl; [ reflexivity | ].
  destruct (k' =? k)%string; [ reflexivity | exact IH ].
Qed.

Lemma setOwn_finite (s : Js.object Q) (k : string) (v : Q) :
  Js.setOwn (finiteEntries s) k (Js.Finite v) = finiteEntries (Js.setOwn s k v).
Proof.
  induction s as [ | [k' v'] s IH ]; simpl; [ reflexivity | ].
  destruct (k' =? k)%string; simpl; [ reflexivity | ].
  f_equal. exact IH.
Qed.

Lemma entries_finite (s : list (string * Q)) :
  exists s', Js.entries (finiteEntries s) = finiteEntries s'
             /\ Permutation s' s.
Proof.
  destruct (Permutation_map_inv _ _ (entries_perm (finiteEntries s)))
    as (s' & E & P).
  exists s'. split; [ exact E | now symmetry ].
Qed.

Lemma whole_nonneg (q : Q) :
  Spec.whole q -> (0 <= q)%Q -> exists z, (q == inject_Z z)%Q /\ 0 <= z.
Proof.
  intros [z E] P. exists z. split; [ exact E | ].
  rewrite E in P. change 0%Q with (inject_Z 0) in P.
  now rewrite <- Zle_Qle in P.
Qed.

(** ** XP per project: sums that no rounding touches *)

(** One step of the aggregation on whole amounts within 2^53: the sum
    stored is exact. *)
Lemma addXp_exact (s : Js.object Q) (tx : XpChart.transaction) :
  Js.inherited (XpChart.projectOf tx) = false ->
  wholeValues s ->
  Spec.whole (XpChart.amount tx) -> (0 < XpChart.amount tx)%Q ->
  (Spec.sumValues s + XpChart.amount tx <= inject_Z (2 ^ 53))%Q ->
  exists s',
    XpChart.addXp (finiteEntries s) tx = finiteEntries s'
    /\ wholeValues s'
    /\ (Spec.sumValues s' == Spec.sumValues s + XpChart.amount tx)%Q.
Proof.
  intros I F W P B. unfold XpChart.addXp. cbv zeta.
  set (label := XpChart.projectOf tx) in *.
  set (a := XpChart.amount tx) in *.
  destruct (whole_nonneg a W (Qlt_le_weak _ _ P)) as (za & Ea & _).
  assert (Pa : 0 < za).
  { rewrite Ea in P. change 0%Q with (inject_Z 0) in P.
    now rewrite <- Zlt_Qlt in P. }
  pose proof (sumValues_nonneg s F) as N.
  unfold Js.get. rewrite getOwn_finite, (set_own _ _ _ I).
  destruct (Js.getOwn s label) as [ v | ] eqn:G; cbn [option_map].
  - pose proof (sumValues_bound s label v F G) as Bv.
    assert (Wv : Spec.whole v /\ (0 <= v)%Q).
    { unfold wholeValues in F. rewrite Forall_forall in F.
      exact (F _ (getOwn_In _ _ _ G)). }
    destruct Wv as [ Wv Pv ].
    destruct (whole_nonneg v Wv Pv) as (zv & Ev & Pz).
    assert (E : (Js.num_or v 0 + a == inject_Z (zv + za))%Q).
    { rewrite num_or_zero, Ev, Ea, inject_Z_plus. reflexivity. }
    assert (Bz : zv + za <= 2 ^ 53).
    { rewrite Zle_Qle, inject_Z_plus, <- Ev, <- Ea. lra. }
    rewrite (plus_whole _ _ (zv + za)) by (try exact E; lia).
    rewrite setOwn_finite. exists (Js.setOwn s label (inject_Z (zv + za))).
    split; [ reflexivity | ]. split.
    + apply (setOwn_values (fun q => Spec.whole q /\ (0 <= q)%Q));
        [ exact F | ].
      split; [ now exists (zv + za) | ].
      change 0%Q with (inject_Z 0). rewrite <- Zle_Qle. lia.
    + rewrite sumValues_setOwn, G, inject_Z_plus, <- Ev, <- Ea. ring.
  - rewrite I.
    assert (E : (0 + a == inject_Z za)%Q) by (rewrite Ea; ring).
    assert (Bz : za <= 2 ^ 53).
    { rewrite Zle_Qle, <- Ea. lra. }
    rewrite (plus_whole _ _ za) by (try exact E; lia).
    rewrite setOwn_finite. exists (Js.setOwn s label (inject_Z za)).
    split; [ reflexivity | ]. split.
    + apply (setOwn_values (fun q => Spec.whole q /\ (0 <= q)%Q));
        [ exact F | ].
      split; [ now exists za | ].
      change 0%Q with (inject_Z 0). rewrite <- Zle_Qle. lia.
    + rewrite sumValues_setOwn, G, <- Ea. ring.
Qed.

Lemma fold_addXp_exact (l : list XpChart.transaction) :
  forall s : Js.object Q,
    Forall (fun tx => Js.inherited (XpChart.projectOf tx) = false) l ->
    Forall (fun tx => Spec.whole (XpChart.amount tx)) l ->
    Forall (fun tx => (0 < XpChart.amount tx)%Q) l ->
    wholeValues s ->
    (Spec.sumValues s + Spec.sumAmounts l <= inject_Z (2 ^ 53))%Q ->
    exists s',
      fold_left XpChart.addXp l (finiteEntries s) = finiteEntries s'
      /\ (Spec.sumValues s' == Spec.sumValues s + Spec.sumAmounts l)%Q.
Proof.
  induction l as [ | tx l IH ]; intros s I W P F B.
  - exists s. split; [ reflexivity | ]. unfold Spec.sumAmounts. simpl. ring.
  - inversion I as [ | ? ? I1 I' ]; subst.
    inversion W as [ | ? ? W1 W' ]; subst.
    inversion P as [ | ? ? P1 P' ]; subst.
    pose proof (sumAmounts_nonneg l P') as N.
    assert (S : (Spec.sumAmounts (tx :: l)
                 == XpChart.amount tx + Spec.sumAmounts l)%Q) by reflexivity.
    rewrite S in B.
    destruct (addXp_exact s tx I1 F W1 P1) as (s1 & E1 & F1 & S1); [ lra | ].
    destruct (IH s1 I' W' P' F1) as (s' & E' & S'); [ lra | ].
    exists s'. cbn [fold_left]. rewrite E1. split; [ exact E' | ].
    rewrite S', S1, S. ring.
Qed.

(** ** XP per project: which records are counted *)

Lemma isChartXp_positive (tx : XpChart.transaction) :
  XpChart.isChartXp tx = true -> (0 < XpChart.amount tx)%Q.
Proof.
  unfold XpChart.isChartXp, XpChart.amount. rewrite !andb_true_iff.
  intros [[_ _] G]. destruct (XpChart.tx_amount tx); try discriminate.
  now apply Qgtb_true.
Qed.

Lemma filtered_positive (records : list XpChart.transaction) :
  Forall (fun tx => (0 < XpChart.amount tx)%Q)
         (filter XpChart.isChartXp records).
Proof.
  apply Forall_forall. intros tx I. apply filter_In in I.
  now apply isChartXp_positive.
Qed.

(** Rounding shows in a sum: the doubles nearest to 0.1 and to 0.2, added
    for one project, are stored as a number that is not their sum. *)
Lemma rounded_sum_differs :
  let tenth := 3602879701896397 # 36028797018963968 in
  let fifth := 3602879701896397 # 18014398509481984 in
  Js.plus 0 tenth = Js.Finite tenth
  /\ Js.plus 0 fifth = Js.Finite fifth
  /\ exists stored, Js.plus tenth fifth = Js.Finite stored
                    /\ (tenth + fifth < stored)%Q.
Proof.
  cbv zeta. split; [ vm_compute; reflexivity | ].
  split; [ vm_compute; reflexivity | ].
  eexists. split; [ vm_compute; reflexivity | reflexivity ].
Qed.

(** ** The claims on aggregation and labels *)

(** C1, as the specification states it, fails: a record without a type
    and with amount 5 is counted by [processData], so the series sums to 5
    while the records of type 'xp' sum to 0. *)
Lemma C1_typeless_record_is_summed : ~ Spec.sumOfValid [Sample.typeless].
Proof.
  intros (series & E & S). vm_compute in E. injection E as <-.
  vm_compute in S. discriminate S.
Qed.

(** C1, amended: for every list of records, the values of the series that
    [processData] builds sum to the amounts of exactly the records its own
    filter keeps (type absent, falsy or 'xp'; amount a number above zero),
    and the other records contribute nothing, when the amounts kept are
    whole numbers with a total of at most 2^53 and no record kept has the
    name of a property of [Object.prototype] for a label.  Every value of
    the series is then a finite number. *)
Theorem C1_series_sum_is_filtered_sum (records : list XpChart.transaction) :
  let kept := filter XpChart.isChartXp records in
  Forall (fun tx => Js.inherited (XpChart.projectOf tx) = false) kept ->
  Forall (fun tx => Spec.whole (XpChart.amount tx)) kept ->
  (Spec.sumAmounts kept <= inject_Z (2 ^ 53))%Q ->
  exists series,
    XpChart.numbers (Js.entries (XpChart.processData records)) = Some series
    /\ (Spec.sumValues series == Spec.sumAmounts kept)%Q.
Proof.
  intros kept I W B.
  destruct (fold_addXp_exact kept [] I W (filtered_positive records))
    as (s & E & S).
  - constructor.
  - change (Spec.sumValues []) with 0%Q. now rewrite Qplus_0_l.
  - destruct (entries_finite s) as (s' & E' & P).
    exists s'. unfold XpChart.processData. fold kept.
    change (@nil (string * Js.stored)) with (finiteEntries []).
    rewrite E, E', numbers_finite. split; [ reflexivity | ].
    rewrite (sumValues_perm _ _ P), S. unfold Spec.sumValues. simpl. ring.
Qed.

(** Five records of which three are kept: 5 for A, 7 + 11 for Graphql. *)
Lemma C1_mixed_records :
  Spec.sumAmounts (filter XpChart.isChartXp Sample.mixed) == 23
  /\ exists series,
       XpChart.numbers (Js.entries (XpChart.processData Sample.mixed))
       = Some series
       /\ (Spec.sumValues series
           == Spec.sumAmounts (filter XpChart.isChartXp Sample.mixed))%Q.
Proof.
  split; [ reflexivity | ].
  apply (C1_series_sum_is_filtered_sum Sample.mixed).
  - repeat constructor.
  - repeat constructor; [ exists 5 | exists 7 | exists 11 ]; reflexivity.
  - vm_compute. discriminate.
Defined.


(** C2, as the specification states it, fails: the label of
    "piscine-go/quest-01/42" is not "Go". *)
Lemma C2_label_is_not_Go :
  DomUtils.getProjectNameFromPath (Some "piscine-go/quest-01/42") <> "Go".
Proof. vm_compute. discriminate. Qed.

(** C2, amended: [getProjectNameFromPath] applied to
    "piscine-go/quest-01/42" returns "01": the numeric last segment "42" is
    passed over for the segment before it, "quest-01", whose prefix "quest-"
    is removed; capitalizing leaves "01" as it is. *)
Theorem C2_label_is_01 :
  Js.split "/" "piscine-go/quest-01/42" = ["piscine-go"; "quest-01"; "42"]
  /\ Js.matches_digits "42" = true
  /\ Js.replace_prefix "quest-" (Js.replace_prefix "piscine-" "quest-01") = "01"
  /\ map Js.capitalize (Js.split "-" "01") = ["01"]
  /\ DomUtils.getProjectNameFromPath (Some "piscine-go/quest-01/42") = "01".
Proof. repeat split. Qed.

(** C8: the label is not always non-empty.  A path that is only a known
    prefix, "piscine-", passes the tests that put a placeholder in place of
    an empty segment, and loses all its text when the prefix is removed: the
    label is the empty string.  A missing path, an empty path and a path of
    slashes do get a placeholder. *)
Theorem C8_prefix_only_path_has_empty_label :
  DomUtils.getProjectNameFromPath (Some "piscine-") = EmptyString
  /\ ~ Spec.labelNonEmpty (Some "piscine-")
  /\ DomUtils.getProjectNameFromPath None = "Unknown Project"
  /\ DomUtils.getProjectNameFromPath (Some EmptyString) = "Unknown Project"
  /\ DomUtils.getProjectNameFromPath (Some "///") = "Unnamed Project".
Proof.
  repeat split. intro H. apply H. reflexivity.
Qed.

(** ** The claims on the scale and the layout *)

(** C5: for a maximum that is not negative, [scaleY] is
    [chartHeight - (v / effectiveMax) * chartHeight] with [effectiveMax] the
    maximum when positive and 1 otherwise; the divisor is never zero, and
    for a maximum of 0 the value 0 sits at [chartHeight]. *)
Theorem C5_scale_formula (v maxValue chartHeight : Q) :
  (0 <= maxValue)%Q ->
  XpChart.scaleY maxValue chartHeight v
  = (chartHeight - (v / Spec.effectiveMax maxValue) * chartHeight)%Q
  /\ ~ (Js.num_or maxValue 1 == 0)%Q
  /\ (XpChart.scaleY 0 chartHeight 0 == chartHeight)%Q.
Proof.
  intro P.
  assert (E : Js.num_or maxValue 1 = Spec.effectiveMax maxValue).
  { unfold Js.num_or, Spec.effectiveMax.
    destruct (Qeq_bool maxValue 0) eqn:Z.
    - apply Qeq_bool_iff in Z.
      assert (F : Js.Qgtb maxValue 0 = false)
        by (apply Qgtb_false; rewrite Z; apply Qle_refl).
      now rewrite F.
    - assert (T : Js.Qgtb maxValue 0 = true).
      { apply Qgtb_true. apply Qle_lt_or_eq in P. destruct P as [ L | Eq ].
        - exact L.
        - symmetry in Eq. apply Qeq_bool_iff in Eq. congruence. }
      now rewrite T. }
  split; [ unfold XpChart.scaleY; now rewrite E | ].
  split.
  - unfold Js.num_or. destruct (Qeq_bool maxValue 0) eqn:Z.
    + discriminate.
    + intro H. apply Qeq_bool_iff in H. congruence.
  - unfold XpChart.scaleY. change (Js.num_or 0 1) with 1%Q.
    unfold Qdiv. change (/ 1)%Q with 1%Q. ring.
Qed.

(** The scale of a chart 220 high with maximum 100, at the value 50. *)
Lemma C5_scale_sample :
  (0 <= 100)%Q
  /\ XpChart.scaleY 100 220 50 = (220 - (50 / Spec.effectiveMax 100) * 220)%Q.
Proof.
  split; [ discriminate | ].
  apply (C5_scale_formula 50 100 220). discriminate.
Defined.

(** ** Layout: the helpers *)

Lemma mapi_map {A B C : Type} (g : A -> nat -> B) (f : B -> C) (h : A -> C)
    (l : list A) :
  (forall x i, f (g x i) = h x) -> map f (Svg.mapi g l) = map h l.
Proof.
  intro H. unfold Svg.mapi. rewrite map_map. generalize 0%nat.
  induction l as [ | x l IH ]; intro s; simpl; [ reflexivity | ].
  now rewrite H, IH.
Qed.

Lemma nonempty_length {A : Type} (l : list A) :
  l <> [] -> (List.length l =? 0)%nat = false.
Proof. destruct l; [ contradiction | reflexivity ]. Qed.

Lemma topN_length (n : nat) (series : list (string * Q)) :
  List.length (XpChart.topN n series) = Nat.min n (List.length series).
Proof.
  unfold XpChart.topN. rewrite slice0_length. unfold XpChart.sortProjects.
  now rewrite sort_length.
Qed.

Lemma topN_In (n : nat) (series : list (string * Q)) (p : string * Q) :
  In p (XpChart.topN n series) -> In p series.
Proof.
  intro H. apply slice0_In in H. unfold XpChart.sortProjects in H.
  now apply sort_In in H.
Qed.









(** ** The claims on the layout *)




(** ** Skills: what [processData] keeps *)

Lemma fold_keepBest_values (R : Q -> Prop) (l : list SkillsChart.skill) :
  forall o : Js.object Q,
    Forall (fun e => R (snd e)) o ->
    Forall (fun sk => R (SkillsChart.s_amount sk)) l ->
    Forall (fun e => R (snd e)) (fold_left SkillsChart.keepBest l o).
Proof.
  induction l as [ | sk l IH ]; intros o Fo Fl; simpl; [ exact Fo | ].
  inversion Fl as [ | ? ? Hs Fl' ]; subst. apply IH; [ | exact Fl' ].
  unfold SkillsChart.keepBest.
  destruct (match Js.get o _ with Js.Own _ => _ | _ => _ end);
    [ now apply set_values | exact Fo ].
Qed.

Lemma processData_values (R : Q -> Prop) (skills : list SkillsChart.skill) :
  Forall (fun sk => R (SkillsChart.s_amount sk)) skills ->
  Forall (fun sk => R (SkillsChart.s_amount sk)) (SkillsChart.processData skills).
Proof.
  intro F. apply Forall_forall. intros sk I.
  unfold SkillsChart.processData in I. apply slice0_In in I.
  unfold SkillsChart.sortSkills in I. apply sort_In in I.
  apply in_map_iff in I. destruct I as ([k v] & <- & I).
  apply (proj1 (entries_In _ _ _)) in I. simpl.
  pose proof (fold_keepBest_values R skills [] (Forall_nil _) F) as Fm.
  rewrite Forall_forall in Fm. exact (Fm _ I).
Qed.

(** C9: a series that is not empty and holds only zeros, in an element
    large enough for the chart, is answered with the all-zero message and
    no bars, in the XP chart and, for the series of aggregated skills, in
    the skills chart; that message is not the too-small message.  The
    skills chart gets there from its input whenever the aggregation keeps
    a skill. *)
Theorem C9_all_zero_is_reported
    (el : Svg.element) (series : list (string * Q))
    (skills skillsData : list SkillsChart.skill) :
  (series <> [] ->
   Forall (fun p => (snd p == 0)%Q) series ->
   XpChart.calculateDimensions el <> None ->
   XpChart.layout el series = Svg.EmptyState XpChart.allZeroMessage
   /\ Svg.barsOf (XpChart.layout el series) = [])
  /\ XpChart.allZeroMessage <> XpChart.tooSmallMessage
  /\ (skills <> [] ->
      Forall (fun sk => (SkillsChart.s_amount sk == 0)%Q) skills ->
      SkillsChart.calculateDimensions el <> None ->
      SkillsChart.layout el skills
      = Svg.EmptyState SkillsChart.allZeroMessage
      /\ Svg.barsOf (SkillsChart.layout el skills) = [])
  /\ SkillsChart.allZeroMessage <> SkillsChart.tooSmallMessage
  /\ (SkillsChart.processData skillsData <> [] ->
      Forall (fun sk => (SkillsChart.s_amount sk == 0)%Q) skillsData ->
      SkillsChart.calculateDimensions el <> None ->
      SkillsChart.render (Some el) skillsData
      = Svg.EmptyState SkillsChart.allZeroMessage).
Proof.
  assert (S : forall l : list SkillsChart.skill,
             l <> [] ->
             Forall (fun sk => (SkillsChart.s_amount sk == 0)%Q) l ->
             SkillsChart.calculateDimensions el <> None ->
             SkillsChart.layout el l
             = Svg.EmptyState SkillsChart.allZeroMessage).
  { intros l NE Z D. unfold SkillsChart.layout.
    rewrite (nonempty_length _ NE).
    destruct (SkillsChart.calculateDimensions el) as [ d | ];
      [ | contradiction ].
    assert (M : Qeq_bool (Js.Math_max0 (map SkillsChart.s_amount l)) 0 = true)
      by now apply Qeq_bool_iff, Math_max0_all_zero, Forall_map.
    now rewrite M. }
  split; [ | split; [ discriminate | split; [ | split; [ discriminate | ] ] ] ].
  - intros NE Z D.
    assert (L : XpChart.layout el series
                = Svg.EmptyState XpChart.allZeroMessage).
    { unfold XpChart.layout, XpChart.layoutTop.
      rewrite (nonempty_length _ NE).
      destruct (XpChart.calculateDimensions el) as [ d | ]; [ | contradiction ].
      assert (M : Qeq_bool (Js.Math_max0 (map snd (XpChart.topN 10 series))) 0
                  = true).
      { apply Qeq_bool_iff, Math_max0_all_zero, Forall_map, Forall_forall.
        intros p I. rewrite Forall_forall in Z. apply Z.
        exact (topN_In _ _ _ I). }
      assert (P : (0 <? List.length (XpChart.topN 10 series))%nat = true).
      { rewrite topN_length. apply Nat.ltb_lt.
        destruct series; [ contradiction | simpl; lia ]. }
      now rewrite M, P. }
    split; [ exact L | now rewrite L ].
  - intros NE Z D. split; [ now apply S | now rewrite S ].
  - intros NE Z D. unfold SkillsChart.render.
    assert (NI : skillsData <> []) by (intros ->; now apply NE).
    rewrite (nonempty_length _ NI). apply S; [ exact NE | | exact D ].
    now apply (processData_values (fun q => (q == 0)%Q)).
Qed.

(** The all-zero message for two projects and for two skills at 0, in an
    element of the default size. *)
Lemma C9_zero_series :
  Sample.zeros <> []
  /\ XpChart.calculateDimensions Sample.defaultElement <> None
  /\ XpChart.layout Sample.defaultElement Sample.zeros
     = Svg.EmptyState XpChart.allZeroMessage
  /\ SkillsChart.processData Sample.zeroSkills <> []
  /\ SkillsChart.calculateDimensions Sample.defaultElement <> None
  /\ SkillsChart.render (Some Sample.defaultElement) Sample.zeroSkills
     = Svg.EmptyState SkillsChart.allZeroMessage.
Proof.
  destruct (C9_all_zero_is_reported Sample.defaultElement Sample.zeros
              Sample.zeroSkills Sample.zeroSkills) as (X & _ & _ & _ & S).
  assert (Hz : Forall (fun p : string * Q => (snd p == 0)%Q) Sample.zeros)
    by (repeat constructor).
  assert (Hs : Forall (fun sk => (SkillsChart.s_amount sk == 0)%Q)
                      Sample.zeroSkills)
    by (repeat constructor).
  split; [ discriminate | ]. split; [ discriminate | ].
  split; [ apply X; [ discriminate | exact Hz | discriminate ] | ].
  split; [ vm_compute; discriminate | ]. split; [ discriminate | ].
  apply S; [ vm_compute; discriminate | exact Hs | discriminate ].
Defined.




(** ** Collaborators: the frequency count *)

(** C6: the count does not leave the user out.  For alice, in two groups
    with bob, [fetchBestFriends] lists alice herself with the count 2,
    before bob with his 2: the code counts the login of every member of
    every group and never compares it with the user's own. *)
Theorem C6_own_login_is_listed :
  Api.fetchBestFriends Sample.aliceGroups
  = Some [ {| Api.c_login := "alice"; Api.c_count := 2 |};
           {| Api.c_login := "bob"; Api.c_count := 2 |} ]
  /\ ~ Spec.excludesSelf "alice" Sample.aliceGroups.
Proof.
  split; [ reflexivity | ].
  intro H. apply (H _ eq_refl). now left.
Qed.

(** ** Activity: the day loop *)

Lemma digitChar_digit (n : Z) :
  exists i, (i < 10)%nat /\ JsDate.digitChar n = ascii_of_nat (48 + i).
Proof.
  exists (Z.to_nat (n mod 10)). split; [ | reflexivity ].
  pose proof (Z.mod_pos_bound n 10 eq_refl). lia.
Qed.

(** The text of a date starts with a digit, so that it names no property
    of [Object.prototype]: the loop of [displayActivity] reads own
    properties only. *)
Lemma isoDay_not_inherited (t : Z) : Js.inherited (JsDate.isoDay t) = false.
Proof.
  unfold JsDate.isoDay.
  destruct (JsDate.civilFromDays (JsDate.Day t)) as [[y m] d].
  cbn [JsDate.padded append].
  destruct (digitChar_digit (y / 10 / 10 / 10)) as (i & B & ->).
  do 10 (destruct i as [ | i ]; [ reflexivity | ]). lia.
Qed.

(** C7, as the specification states it, fails: with no observations
    there is no window of 181 cells, in no time zone. *)
Lemma C7_empty_list_has_no_window : ~ Spec.emptyWindow Sample.noon.
Proof.
  intros (z & fuel & cells & H & _).
  unfold App.displayActivity in H. cbn [List.length Nat.eqb] in H.
  discriminate H.
Qed.

(** C7, amended: with no observations [displayActivity] shows the
    no-activity message and no cell at all, whatever the date, the time
    zone and the clock. *)
Theorem C7_empty_list_shows_no_cells
    (z : JsDate.zone) (fuel : nat) (today again : Z) :
  App.displayActivity z fuel [] today again = Some App.NoActivity
  /\ App.cellsOf App.NoActivity = [].
Proof. split; reflexivity. Qed.

(** With observations, the window is one of calendar months: in UTC, with
    the clock at 2026-11-02 noon at both reads, it has 185 cells from
    2026-05-02 on; a second read one millisecond later leaves the loop one
    cell short of the day of the first read. *)
Lemma activity_window_in_utc :
  option_map (fun v => List.length (App.cellsOf v))
    (App.displayActivity Sample.utc 200 Sample.oneDay Sample.noon Sample.noon)
  = Some 185%nat
  /\ option_map (fun v => hd_error (map App.d_date (App.cellsOf v)))
       (App.displayActivity Sample.utc 200 Sample.oneDay Sample.noon
          Sample.noon)
     = Some (Some "2026-05-02")
  /\ option_map (fun v => List.length (App.cellsOf v))
       (App.displayActivity Sample.utc 200 Sample.oneDay Sample.noon
          (Sample.noon + 1))
     = Some 184%nat.
Proof. repeat split; vm_compute; reflexivity. Qed.
(** * Further properties *)

(** ** Own properties *)

Section OwnProperties.
Context {V : Type}.
Implicit Types (o : Js.object V) (k : string) (v : V).

Lemma setOwn_keys o k v :
  map fst (Js.setOwn o k v)
  = if in_dec string_dec k (map fst o) then map fst o
    else (map fst o ++ [k])%list.
Proof.
  induction o as [ | [k' v'] o IH ]; simpl; [ reflexivity | ].
  destruct (k' =? k)%string eqn:E; simpl.
  - apply String.eqb_eq in E. subst k'.
    destruct (string_dec k k); [ reflexivity | contradiction ].
  - apply String.eqb_neq in E. rewrite IH.
    destruct (string_dec k' k); [ contradiction | ].
    destruct (in_dec string_dec k (map fst o)); reflexivity.
Qed.

Lemma setOwn_NoDup o k v :
  NoDup (map fst o) -> NoDup (map fst (Js.setOwn o k v)).
Proof.
  intro ND. rewrite setOwn_keys.
  destruct (in_dec string_dec k (map fst o)) as [ I | NI ]; [ exact ND | ].
  apply NoDup_rev in ND. rewrite <- (rev_involutive (map fst o ++ [k])%list).
  apply NoDup_rev. rewrite rev_app_distr. simpl. constructor; [ | exact ND ].
  now rewrite <- in_rev.
Qed.

Lemma set_NoDup o k v : NoDup (map fst o) -> NoDup (map fst (Js.set o k v)).
Proof.
  intro ND. unfold Js.set. destruct (k =? "__proto__")%string;
    [ exact ND | now apply setOwn_NoDup ].
Qed.

Lemma set_In_keys o k k' v :
  In k' (map fst (Js.set o k v))
  <-> In k' (map fst o) \/ (k' = k /\ k <> "__proto__").
Proof.
  unfold Js.set. destruct (k =? "__proto__")%string eqn:E.
  - apply String.eqb_eq in E. split; [ now left | ].
    intros [ H | [ _ N ] ]; [ exact H | contradiction ].
  - apply String.eqb_neq in E. rewrite setOwn_keys.
    destruct (in_dec string_dec k (map fst o)) as [ I | N ].
    + split; [ now left | ]. intros [ H | [ -> _ ] ]; assumption.
    + rewrite in_app_iff. simpl. split.
      * intros [ H | [ <- | [] ] ]; [ now left | right; now split ].
      * intros [ H | [ -> _ ] ]; [ now left | right; now left ].
Qed.

Lemma In_getOwn o k v :
  NoDup (map fst o) -> In (k, v) o -> Js.getOwn o k = Some v.
Proof.
  induction o as [ | [k' v'] o IH ]; simpl; [ contradiction | ].
  intros ND [E | I].
  - injection E as -> ->. now rewrite String.eqb_refl.
  - inversion ND as [ | ? ? Hn ND' ]; subst.
    destruct (k' =? k)%string eqn:E.
    + apply String.eqb_eq in E. subst k'. exfalso. apply Hn.
      change k with (fst (k, v)). now apply in_map.
    + now apply IH.
Qed.

Lemma getOwn_None o k : Js.getOwn o k = None <-> ~ In k (map fst o).
Proof.
  induction o as [ | [k' v'] o IH ]; simpl; [ tauto | ].
  destruct (k' =? k)%string eqn:E.
  - apply String.eqb_eq in E. subst k'. split; [ discriminate | ].
    intro N. exfalso. apply N. now left.
  - apply String.eqb_neq in E. rewrite IH. tauto.
Qed.

Lemma entries_keys o : Permutation (map fst (Js.entries o)) (map fst o).
Proof. apply Permutation_map, entries_perm. Qed.

Lemma entries_nil o : Js.entries o = [] <-> o = [].
Proof.
  split; [ | now intros -> ].
  intro E. pose proof (entries_perm o) as P. rewrite E in P.
  now apply Permutation_nil in P.
Qed.

End OwnProperties.

(** ** XP per project: the labels of the series *)

Lemma fold_addXp_keys (l : list XpChart.transaction) :
  forall (o : Js.object Js.stored) (k : string),
    In k (map fst (fold_left XpChart.addXp l o))
    <-> In k (map fst o)
        \/ (k <> "__proto__"
            /\ exists tx, In tx l /\ XpChart.projectOf tx = k).
Proof.
  induction l as [ | tx l IH ]; intros o k; simpl.
  - split; [ now left | ]. intros [ H | (_ & tx & [] & _) ]. exact H.
  - rewrite IH. unfold XpChart.addXp at 1. cbv zeta. rewrite set_In_keys.
    split.
    + intros [ [ H | [ -> N ] ] | (N & tx' & I & E) ].
      * now left.
      * right. split; [ exact N | ].
        exists tx. split; [ now left | reflexivity ].
      * right. split; [ exact N | ].
        exists tx'. split; [ now right | exact E ].
    + intros [ H | (N & tx' & [ -> | I ] & E) ].
      * left. now left.
      * left. right. subst k. now split.
      * right. split; [ exact N | ]. exists tx'. now split.
Qed.

Lemma fold_addXp_NoDup (l : list XpChart.transaction) :
  forall o : Js.object Js.stored,
    NoDup (map fst o) -> NoDup (map fst (fold_left XpChart.addXp l o)).
Proof.
  induction l as [ | tx l IH ]; intros o D; simpl; [ exact D | ].
  apply IH. unfold XpChart.addXp. now apply set_NoDup.
Qed.

Lemma processData_keys (records : list XpChart.transaction) (label : string) :
  In label (map fst (XpChart.processData records))
  <-> label <> "__proto__"
      /\ exists tx, In tx records /\ XpChart.isChartXp tx = true
                    /\ XpChart.projectOf tx = label.
Proof.
  unfold XpChart.processData. rewrite fold_addXp_keys. simpl. split.
  - intros [ [] | (N & tx & I & E) ]. apply filter_In in I.
    split; [ exact N | ]. exists tx. repeat split; tauto.
  - intros (N & tx & I & C & E). right. split; [ exact N | ].
    exists tx. split; [ apply filter_In; now split | exact E ].
Qed.

(** X1: the series of the XP chart has one entry for each label of a
    record that passes the filter, the label [__proto__] excepted, and no
    label twice. *)
Theorem X1_one_entry_for_each_label (records : list XpChart.transaction) :
  let series := Js.entries (XpChart.processData records) in
  NoDup (map fst series)
  /\ forall label,
       In label (map fst series)
       <-> label <> "__proto__"
           /\ exists tx, In tx records /\ XpChart.isChartXp tx = true
                         /\ XpChart.projectOf tx = label.
Proof.
  cbv zeta. split.
  - apply (Permutation_NoDup (Permutation_sym (entries_keys _))).
    apply fold_addXp_NoDup. constructor.
  - intro label. rewrite <- processData_keys.
    split; apply Permutation_in;
      [ apply entries_keys | symmetry; apply entries_keys ].
Qed.

Lemma layout_noData (n : nat) (el : Svg.element) (series : list (string * Q)) :
  XpChart.layoutTop n el series = Svg.EmptyState XpChart.noDataMessage
  <-> series = [].
Proof.
  unfold XpChart.layoutTop. destruct series as [ | p series ].
  - split; reflexivity.
  - cbn [List.length Nat.eqb]. split; [ | discriminate ].
    destruct (XpChart.calculateDimensions el); [ | discriminate ].
    destruct (_ && _); discriminate.
Qed.

Lemma numbers_nil (o : list (string * Js.stored)) :
  XpChart.numbers o = Some [] <-> o = [].
Proof.
  split; [ | now intros -> ].
  destruct o as [ | [k [ v | ]] o ]; simpl; [ reflexivity | | discriminate ].
  destruct (XpChart.numbers o); discriminate.
Qed.

(** X2: the XP chart shows its no-data message exactly when every record
    that passes the filter has the label [__proto__] (in particular when
    none passes, or the list is empty), whatever the size of the
    element. *)
Theorem X2_no_data_iff_nothing_stored
    (el : Svg.element) (records : list XpChart.transaction) :
  XpChart.render (Some el) records = Svg.EmptyState XpChart.noDataMessage
  <-> Forall (fun tx => XpChart.projectOf tx = "__proto__")
             (filter XpChart.isChartXp records).
Proof.
  assert (K : forall label,
             In label (map fst (Js.entries (XpChart.processData records)))
             <-> label <> "__proto__"
                 /\ exists tx, In tx records /\ XpChart.isChartXp tx = true
                               /\ XpChart.projectOf tx = label).
  { intro label. rewrite <- processData_keys.
    split; apply Permutation_in;
      [ apply entries_keys | symmetry; apply entries_keys ]. }
  unfold XpChart.render, XpChart.layout.
  set (series := Js.entries (XpChart.processData records)) in *.
  assert (Empty : series = []
                  <-> Forall (fun tx => XpChart.projectOf tx = "__proto__")
                             (filter XpChart.isChartXp records)).
  { rewrite Forall_forall. split.
    - intros E tx I. apply filter_In in I. destruct I as [ I C ].
      destruct (string_dec (XpChart.projectOf tx) "__proto__") as [ P | N ];
        [ exact P | exfalso ].
      assert (In (XpChart.projectOf tx) (map fst series)).
      { apply K. split; [ exact N | ]. now exists tx. }
      rewrite E in H. exact H.
    - intro F. destruct series as [ | [k v] r ]; [ reflexivity | exfalso ].
      destruct (proj1 (K k) (or_introl eq_refl)) as (N & tx & I & C & E).
      apply N. rewrite <- E. apply F. apply filter_In. now split. }
  rewrite <- Empty. destruct (XpChart.numbers series) as [ s | ] eqn:Nm.
  - rewrite layout_noData. split.
    + intros ->. now apply numbers_nil.
    + intros E. rewrite E in Nm. now injection Nm as <-.
  - split.
    + destruct (XpChart.calculateDimensions el); discriminate.
    + intros E. rewrite E in Nm. discriminate Nm.
Qed.

(** ** Collaborators: what the counts are *)

Lemma countGroups_flat (groups : list Api.groupEntry) :
  forall o : Js.object Api.tally,
    fold_left (fun collaborators g =>
                 fold_left Api.countMember (Api.membersOf g) collaborators)
              groups o
    = fold_left Api.countMember (flat_map Api.membersOf groups) o.
Proof.
  induction groups as [ | g groups IH ]; intro o; simpl; [ reflexivity | ].
  now rewrite fold_left_app, IH.
Qed.

Lemma counts_counted (s : list (string * Z)) :
  Api.counts (countedEntries s) = Some s.
Proof.
  induction s as [ | [k v] s IH ]; [ reflexivity | ].
  change (countedEntries ((k, v) :: s))
    with ((k, Api.Counted v) :: countedEntries s).
  cbn [Api.counts]. now rewrite IH.
Qed.

Lemma getOwn_counted (s : Js.object Z) (k : string) :
  Js.getOwn (countedEntries s) k = option_map Api.Counted (Js.getOwn s k).
Proof.
  induction s as [ | [k' v'] s IH ]; simpl; [ reflexivity | ].
  destruct (k' =? k)%string; [ reflexivity | exact IH ].
Qed.

Lemma setOwn_counted (s : Js.object Z) (k : string) (v : Z) :
  Js.setOwn (countedEntries s) k (Api.Counted v)
  = countedEntries (Js.setOwn s k v).
Proof.
  induction s as [ | [k' v'] s IH ]; simpl; [ reflexivity | ].
  destruct (k' =? k)%string; simpl; [ reflexivity | ].
  f_equal. exact IH.
Qed.

(** One member entry, for a login that names no inherited property: its
    count goes up by one, from zero if it was not there. *)
Lemma countMember_counted (s : Js.object Z) (m : Api.member) :
  (forall l, Api.loginOf m = Some l -> Js.inherited l = false) ->
  NoDup (map fst s) ->
  exists s',
    Api.countMember (countedEntries s) m = countedEntries s'
    /\ NoDup (map fst s')
    /\ forall l,
         Js.getOwn s' l
         = if negb (l =? EmptyString)%string && hasLogin l m
           then Some (match Js.getOwn s l with Some c => c | None => 0 end + 1)
           else Js.getOwn s l.
Proof.
  intros I D. unfold Api.countMember, hasLogin.
  destruct (Api.loginOf m) as [ l' | ].
  2:{ exists s. split; [ reflexivity | ]. split; [ exact D | ].
      intro l. now rewrite andb_false_r. }
  specialize (I l' eq_refl).
  destruct (l' =? EmptyString)%string eqn:E'.
  { exists s. split; [ reflexivity | ]. split; [ exact D | ].
    intro l. apply String.eqb_eq in E'. subst l'.
    rewrite (String.eqb_sym EmptyString l).
    now destruct (l =? EmptyString)%string. }
  unfold Js.get. rewrite getOwn_counted, (set_own _ _ _ I).
  set (old := match Js.getOwn s l' with Some c => c | None => 0 end).
  assert (N : match option_map Api.Counted (Js.getOwn s l') with
              | Some (Api.Counted c) => Api.Counted (Js.int_or c 0 + 1)
              | Some Api.Text => Api.Text
              | None => if Js.inherited l' then Api.Text
                        else Api.Counted (0 + 1)
              end = Api.Counted (old + 1)).
  { unfold old. destruct (Js.getOwn s l') as [ c | ]; cbn [option_map].
    - now rewrite int_or_zero.
    - now rewrite I. }
  assert (N' : match
                 match option_map Api.Counted (Js.getOwn s l') with
                 | Some v => Js.Own v
                 | None => if Js.inherited l' then Js.Inherited else Js.Missing
                 end
               with
               | Js.Own (Api.Counted c) => Api.Counted (Js.int_or c 0 + 1)
               | Js.Own Api.Text => Api.Text
               | Js.Inherited => Api.Text
               | Js.Missing => Api.Counted (0 + 1)
               end = Api.Counted (old + 1)).
  { rewrite <- N. destruct (option_map Api.Counted (Js.getOwn s l'))
      as [ [ c | ] | ]; [ reflexivity | reflexivity | ].
    now destruct (Js.inherited l'). }
  rewrite N', setOwn_counted. exists (Js.setOwn s l' (old + 1)).
  split; [ reflexivity | ]. split; [ now apply setOwn_NoDup | ].
  intro l. destruct (l' =? l)%string eqn:E.
  - apply String.eqb_eq in E. subst l'. rewrite E'. cbn [negb andb].
    apply getOwn_setOwn_same.
  - rewrite andb_false_r. apply getOwn_setOwn_other.
    now apply String.eqb_neq.
Qed.

Lemma filter_hasLogin_snoc (l : string) (ms : list Api.member) (m : Api.member) :
  Z.of_nat (List.length (filter (hasLogin l) (ms ++ [m])))
  = Z.of_nat (List.length (filter (hasLogin l) ms))
    + (if hasLogin l m then 1 else 0).
Proof.
  rewrite filter_app, length_app. simpl.
  destruct (hasLogin l m); simpl; lia.
Qed.

Lemma fold_countMember (ms : list Api.member) :
  Forall (fun m => forall l, Api.loginOf m = Some l -> Js.inherited l = false)
         ms ->
  exists s,
    fold_left Api.countMember ms [] = countedEntries s
    /\ NoDup (map fst s)
    /\ forall l,
         let n := Z.of_nat (List.length (filter (hasLogin l) ms)) in
         Js.getOwn s l
         = if (l =? EmptyString)%string || (n =? 0) then None else Some n.
Proof.
  induction ms as [ | m ms IH ] using rev_ind; intro F.
  - exists []. split; [ reflexivity | ]. split; [ constructor | ].
    intro l. cbv zeta. simpl. now rewrite orb_true_r.
  - apply Forall_app in F. destruct F as [ Fs Fm ].
    inversion Fm as [ | ? ? Hm _ ]; subst.
    destruct (IH Fs) as (s & E & D & G).
    destruct (countMember_counted s m Hm D) as (s' & E' & D' & G').
    exists s'. rewrite fold_left_app. cbn [fold_left]. rewrite E, E'.
    split; [ reflexivity | ]. split; [ exact D' | ].
    intro l. cbv zeta. rewrite G', filter_hasLogin_snoc, (G l).
    set (n := Z.of_nat (List.length (filter (hasLogin l) ms))).
    assert (P : 0 <= n) by (unfold n; lia).
    destruct (l =? EmptyString)%string; simpl; [ reflexivity | ].
    destruct (hasLogin l m); simpl.
    + destruct (n =? 0) eqn:Z0.
      * apply Z.eqb_eq in Z0. rewrite Z0. reflexivity.
      * destruct (n + 1 =? 0) eqn:Z1;
          [ apply Z.eqb_eq in Z1; lia | reflexivity ].
    + now rewrite Z.add_0_r.
Qed.

Lemma entries_counted (s : list (string * Z)) :
  exists s', Js.entries (countedEntries s) = countedEntries s'
             /\ Permutation s' s.
Proof.
  destruct (Permutation_map_inv _ _ (entries_perm (countedEntries s)))
    as (s' & E & P).
  exists s'. split; [ exact E | now symmetry ].
Qed.

(** A login that names a property of [Object.prototype] is not counted:
    [constructor] gets a text for a count, [__proto__] is not listed. *)
Lemma inherited_login_is_miscounted :
  Js.entries (Api.countGroups
                [Sample.groupOf ["constructor"; "bob"; "__proto__"]])
  = [("constructor", Api.Text); ("bob", Api.Counted 1)]
  /\ Api.fetchBestFriends
       [Sample.groupOf ["constructor"; "bob"; "__proto__"]] = None.
Proof. split; reflexivity. Qed.

(** X3: when no login names a property of [Object.prototype],
    [fetchBestFriends] lists every login that is not empty and occurs in
    some group, once, with the number of member entries that carry it:
    membership of several groups adds up, and the user's own login is
    counted like any other. *)
Theorem X3_counts_are_member_entries (groups : list Api.groupEntry) :
  Forall (fun m => forall l, Api.loginOf m = Some l -> Js.inherited l = false)
         (flat_map Api.membersOf groups) ->
  exists listed,
    Api.fetchBestFriends groups = Some listed
    /\ NoDup (map Api.c_login listed)
    /\ forall l k,
         In {| Api.c_login := l; Api.c_count := k |} listed
         <-> l <> EmptyString /\ 0 < k /\ k = memberEntries l groups.
Proof.
  intro F. destruct (fold_countMember _ F) as (s & E & D & G).
  destruct (entries_counted s) as (s' & E' & P).
  unfold Api.fetchBestFriends, Api.countGroups.
  rewrite countGroups_flat, E, E', counts_counted.
  eexists. split; [ reflexivity | ]. split.
  - apply (Permutation_NoDup (l := map fst s)); [ | exact D ].
    unfold Api.sortCollaborators. rewrite sort_perm, map_map. cbn [Api.c_login Api.toCollaborator].
    apply Permutation_map. now symmetry.
  - intros l k. unfold Api.sortCollaborators. rewrite sort_In, in_map_iff.
    unfold memberEntries. specialize (G l). cbv zeta in G.
    set (n := Z.of_nat (List.length (filter (hasLogin l)
                                       (flat_map Api.membersOf groups)))) in *.
    assert (Pn : 0 <= n) by (unfold n; lia).
    split.
    + intros ([l' k'] & Eq & I). injection Eq as -> ->.
      apply (Permutation_in _ P) in I. apply (In_getOwn _ _ _ D) in I.
      rewrite I in G.
      destruct (l =? EmptyString)%string eqn:El; [ discriminate | ].
      destruct (n =? 0) eqn:Z0; [ discriminate | ].
      injection G as ->. apply String.eqb_neq in El. apply Z.eqb_neq in Z0.
      repeat split; [ exact El | lia ].
    + intros (El & Pk & ->). exists (l, n). split; [ reflexivity | ].
      apply (Permutation_in _ (Permutation_sym P)). apply getOwn_In.
      rewrite G. apply String.eqb_neq in El. rewrite El.
      destruct (n =? 0) eqn:Z0; [ apply Z.eqb_eq in Z0; lia | reflexivity ].
Qed.

(** The two groups of alice and bob: both are listed with 2. *)
Lemma X3_alice_and_bob :
  exists listed,
    Api.fetchBestFriends Sample.aliceGroups = Some listed
    /\ NoDup (map Api.c_login listed)
    /\ forall l k,
         In {| Api.c_login := l; Api.c_count := k |} listed
         <-> l <> EmptyString /\ 0 < k
             /\ k = memberEntries l Sample.aliceGroups.
Proof.
  apply (X3_counts_are_member_entries Sample.aliceGroups).
  repeat constructor; intros l [= <-]; reflexivity.
Defined.

(** ** Skills: the best amount of each type *)









(** ** The texts under the bars *)

Lemma length_append (s t : string) :
  String.length (s ++ t) = (String.length s + String.length t)%nat.
Proof. induction s as [ | c s IH ]; simpl; [ reflexivity | now rewrite IH ]. Qed.

Lemma length_substring0 (n : nat) (s : string) :
  String.length (Js.substring0 n s) = Nat.min n (String.length s).
Proof.
  unfold Js.substring0. revert s.
  induction n as [ | n IH ]; intros [ | c s ]; simpl; try reflexivity.
  now rewrite IH.
Qed.

Lemma truncateLabel_length (text : string) :
  (String.length (XpChart.truncateLabel text) <= 15)%nat.
Proof.
  unfold XpChart.truncateLabel.
  destruct (15 <? String.length text)%nat eqn:E.
  - apply Nat.ltb_lt in E.
    rewrite length_append, length_substring0.
    change (String.length "...") with 3%nat. lia.
  - now apply Nat.ltb_ge in E.
Qed.

Lemma skillName_length (type : string) :
  (String.length (SkillsChart.skillName type) <= 12)%nat.
Proof.
  unfold SkillsChart.skillName. cbv zeta.
  destruct (12 <? String.length _)%nat eqn:E.
  - apply Nat.ltb_lt in E. rewrite length_append, length_substring0.
    change (String.length "...") with 3%nat. lia.
  - now apply Nat.ltb_ge in E.
Qed.

Lemma mapi_length {A B : Type} (f : A -> nat -> B) (l : list A) :
  List.length (Svg.mapi f l) = List.length l.
Proof.
  unfold Svg.mapi. rewrite length_map, length_combine, length_seq.
  apply Nat.min_id.
Qed.

(** X5: the texts under the bars are short.  The XP chart writes one
    label for each project it is given, the project label when that has at
    most 15 characters and a text of 15 characters otherwise; the skills
    chart writes one label and one bar for each skill, and no label of more
    than 12 characters. *)
Theorem X5_labels_are_short
    (projects : list (string * Q)) (skills : list SkillsChart.skill)
    (barWidth chartWidth chartHeight : Q) (margin : Svg.margins)
    (svgHeight : Z) (scaleY : Q -> Q) :
  let xp := XpChart.renderXAxisLabels projects barWidth chartWidth margin
              svgHeight in
  let sk := SkillsChart.renderBarsAndLabels skills barWidth chartWidth
              chartHeight scaleY in
  List.length xp = List.length projects
  /\ Forall (fun l => (String.length (Svg.l_text l) <= 15)%nat) xp
  /\ map Svg.l_text xp
     = map (fun p => if (String.length (fst p) <=? 15)%nat then fst p
                     else Js.substring0 12 (fst p) ++ "...") projects
  /\ List.length sk = List.length skills
  /\ Forall (fun d => (String.length (Svg.l_text (fst d)) <= 12)%nat
                      /\ Svg.b_label (snd d) = Svg.l_text (fst d)) sk.
Proof.
  cbv zeta. unfold XpChart.renderXAxisLabels, SkillsChart.renderBarsAndLabels.
  cbv zeta. rewrite !mapi_length.
  split; [ reflexivity | ]. split.
  - apply Forall_forall. intros l I.
    apply (in_map Svg.l_text) in I.
    rewrite mapi_map with (h := fun p => XpChart.truncateLabel (fst p)) in I
      by reflexivity.
    apply in_map_iff in I. destruct I as (p & <- & _).
    apply truncateLabel_length.
  - split.
    + rewrite mapi_map with (h := fun p => XpChart.truncateLabel (fst p))
        by reflexivity.
      apply map_ext. intro p. unfold XpChart.truncateLabel.
      rewrite Nat.leb_antisym. now destruct (15 <? _)%nat.
    + split; [ reflexivity | ].
      apply Forall_forall. intros d I.
      unfold Svg.mapi in I. apply in_map_iff in I.
      destruct I as ([i s] & <- & _). cbn [fst snd Svg.l_text Svg.b_label].
      split; [ apply skillName_length | reflexivity ].
Qed.

(** ** The two filters *)

(** X6: the chart and the table of recent transactions choose their
    records by the same test of the type, and the chart asks in addition
    for an amount above zero: the records of the chart are those records of
    the table whose amount is above zero, in the same order, and a record
    of type 'xp' with amount 0 is in the table and not in the chart. *)
Theorem X6_chart_records_are_table_records
    (records : list XpChart.transaction) :
  filter XpChart.isChartXp records
  = filter (fun t => Js.gt_zero (XpChart.tx_amount t))
           (filter App.isTableXp records)
  /\ incl (filter XpChart.isChartXp records) (filter App.isTableXp records)
  /\ App.isTableXp
       {| XpChart.tx_type := Js.JStr "xp"; XpChart.tx_amount := Js.JNum 0;
          XpChart.tx_path := None |} = true
  /\ XpChart.isChartXp
       {| XpChart.tx_type := Js.JStr "xp"; XpChart.tx_amount := Js.JNum 0;
          XpChart.tx_path := None |} = false.
Proof.
  assert (E : filter XpChart.isChartXp records
              = filter (fun t => Js.gt_zero (XpChart.tx_amount t))
                       (filter App.isTableXp records)).
  { induction records as [ | tx l IH ]; [ reflexivity | ].
    cbn [filter]. unfold XpChart.isChartXp at 1.
    fold (App.isTableXp tx). destruct (App.isTableXp tx); cbn [andb filter].
    - now rewrite IH.
    - exact IH. }
  split; [ exact E | ]. split; [ | split; reflexivity ].
  rewrite E. intros tx I. now apply filter_In in I.
Qed.

(** ** Labels: no separator is left *)

Lemma occurs_append (c : ascii) (s t : string) :
  occurs c (s ++ t) = occurs c s || occurs c t.
Proof.
  induction s as [ | a s IH ]; simpl; [ reflexivity | ].
  now rewrite IH, orb_assoc.
Qed.

(** The pieces of a split hold no separator, and no character that the
    text did not hold. *)
Lemma split_pieces (sep c : ascii) (s : string) :
  c = sep \/ occurs c s = false ->
  Forall (fun w => occurs c w = false) (Js.split sep s).
Proof.
  induction s as [ | a r IH ]; intro H; cbn [Js.split].
  - now repeat constructor.
  - assert (Hr : c = sep \/ occurs c r = false).
    { destruct H as [ H | H ]; [ now left | right ].
      cbn [occurs] in H. now apply orb_false_iff in H. }
    specialize (IH Hr). destruct (Ascii.eqb a sep) eqn:E.
    + constructor; [ reflexivity | exact IH ].
    + assert (Na : Ascii.eqb a c = false).
      { destruct H as [ -> | H ]; [ exact E | ].
        cbn [occurs] in H. now apply orb_false_iff in H. }
      destruct (Js.split sep r) as [ | w ws ].
      * repeat constructor. cbn [occurs]. now rewrite Na.
      * inversion IH as [ | ? ? Hw Hws ]; subst.
        constructor; [ | exact Hws ]. cbn [occurs]. now rewrite Na, Hw.
Qed.

Lemma index_In {A : Type} (l : list A) (i : Z) (x : A) :
  Js.index l i = Some x -> In x l.
Proof.
  unfold Js.index. destruct (i <? 0); [ discriminate | ].
  apply nth_error_In.
Qed.

Lemma str_or_occurs (c : ascii) (parts : list string) (i : Z) (d : string) :
  Forall (fun w => occurs c w = false) parts -> occurs c d = false ->
  occurs c (Js.str_or (Js.index parts i) d) = false.
Proof.
  intros F D. unfold Js.str_or.
  destruct (Js.index parts i) as [ t | ] eqn:E; [ | exact D ].
  destruct (t =? EmptyString)%string; [ exact D | ].
  rewrite Forall_forall in F. exact (F _ (index_In _ _ _ E)).
Qed.

Lemma strip_prefix_occurs (c : ascii) (p s r : string) :
  Js.strip_prefix p s = Some r -> occurs c s = false -> occurs c r = false.
Proof.
  revert s. induction p as [ | a p IH ]; intros s; simpl.
  - now intros [= ->].
  - destruct s as [ | b s ]; [ discriminate | ].
    destruct (Ascii.eqb a b); [ | discriminate ].
    intros H O. cbn [occurs] in O. apply orb_false_iff in O.
    now apply (IH s).
Qed.

Lemma replace_prefix_occurs (c : ascii) (p s : string) :
  occurs c s = false -> occurs c (Js.replace_prefix p s) = false.
Proof.
  intro O. unfold Js.replace_prefix.
  destruct (Js.strip_prefix p s) as [ r | ] eqn:E; [ | exact O ].
  exact (strip_prefix_occurs c p s r E O).
Qed.

Lemma upper_char_slash (a : ascii) :
  Ascii.eqb (Js.upper_char a) "/" = Ascii.eqb a "/".
Proof. destruct a as [[] [] [] [] [] [] [] []]; reflexivity. Qed.

Lemma upper_char_hyphen (a : ascii) :
  Ascii.eqb (Js.upper_char a) "-" = Ascii.eqb a "-".
Proof. destruct a as [[] [] [] [] [] [] [] []]; reflexivity. Qed.

Lemma capitalize_occurs (c : ascii) (w : string) :
  c = "/"%char \/ c = "-"%char ->
  occurs c w = false -> occurs c (Js.capitalize w) = false.
Proof.
  intros C O. destruct w as [ | a r ]; [ reflexivity | ].
  cbn [Js.capitalize occurs] in *.
  destruct C as [ -> | -> ];
    [ now rewrite upper_char_slash | now rewrite upper_char_hyphen ].
Qed.

Lemma join_occurs (c : ascii) (sep : string) (ws : list string) :
  occurs c sep = false -> Forall (fun w => occurs c w = false) ws ->
  occurs c (Js.join sep ws) = false.
Proof.
  intros S F. induction F as [ | w ws Hw F IH ]; [ reflexivity | ].
  cbn [Js.join]. destruct ws as [ | w' ws ]; [ exact Hw | ].
  now rewrite !occurs_append, Hw, S, IH.
Qed.

(** X7: a label holds no slash and no hyphen, whatever the path: the
    segments are cut at the slashes, the words at the hyphens, and the
    words are joined by spaces. *)
Theorem X7_label_has_no_separator (path : option string) :
  occurs "/" (DomUtils.getProjectNameFromPath path) = false
  /\ occurs "-" (DomUtils.getProjectNameFromPath path) = false.
Proof.
  assert (L : forall c : ascii,
             c = "/"%char \/ c = "-"%char ->
             occurs c (DomUtils.getProjectNameFromPath path) = false).
  { intros c C. unfold DomUtils.getProjectNameFromPath.
    destruct path as [ [ | a r ] | ];
      [ destruct C as [ -> | -> ]; reflexivity | |
        destruct C as [ -> | -> ]; reflexivity ].
    cbv zeta. set (path := String a r).
    set (parts := Js.split "/" path).
    assert (Slash : forall w, In w parts -> occurs "/" w = false).
    { apply Forall_forall. apply split_pieces. now left. }
    apply join_occurs; [ destruct C as [ -> | -> ]; reflexivity | ].
    apply Forall_forall. intros w I. apply in_map_iff in I.
    destruct I as (w0 & <- & I). apply capitalize_occurs; [ exact C | ].
    revert w0 I. apply Forall_forall. apply split_pieces.
    destruct C as [ -> | -> ]; [ right | now left ].
    do 2 apply replace_prefix_occurs.
    assert (P : forall i, occurs "/" (Js.str_or (Js.index parts i)
                                        "Unnamed Project") = false).
    { intro i. apply str_or_occurs; [ now apply Forall_forall | reflexivity ]. }
    destruct (_ && _); apply P. }
  split; apply L; [ now left | now right ].
Qed.

